(** * resicentral: clinical calculators and the algorithm graph queries

    A shallow embedding of
    - [backend/app/clinical_modules/calculators.py] (the scoring engine),
    - the algorithm part of [backend/app/crud.py] (graph queries and counters),
    - the algorithm endpoints of [backend/app/main.py],
    followed by the properties of the specification that concern them and
    by further properties read off the code.

    Python values are modelled dynamically: a calculator receives whatever
    the caller passes, truthiness decides an [if], and a comparison between
    a number and a non-number raises [TypeError].  Finite floats are
    modelled by rationals; binary rounding, infinities and NaN are outside
    the model.  An integer is unbounded; where arithmetic mixes it with a
    float it is first converted, which raises [OverflowError] when it is
    too large for a float. *)

From Stdlib Require Import ZArith QArith Qround Lqa Lia String Sorting.Sorted.
From stdpp Require Import base decidable option list strings pretty sorting gmap.

Open Scope Z_scope.

(** ** Python values, exceptions and the operators the code uses *)

Module py.

Inductive value : Type :=
  | VNone
  | VBool (b : bool)
  | VInt (z : Z)
  | VFloat (q : Q)
  | VStr (s : string).

Inductive exn : Type :=
  | ValueError (msg : string)
  | TypeError
  | OverflowError.

Inductive result (A : Type) : Type :=
  | Ok (a : A)
  | Raise (e : exn).
Arguments Ok {A} a.
Arguments Raise {A} e.

#[global] Instance result_ret : MRet result := @Ok.
#[global] Instance result_bind : MBind result :=
  fun A B f m => match m with Ok a => f a | Raise e => Raise e end.

(** Numbers: [bool] is a subclass of [int]; [int] and [float] mix. *)
Inductive num : Type :=
  | NInt (z : Z)
  | NFloat (q : Q).

Definition as_num (v : value) : option num :=
  match v with
  | VBool b => Some (NInt (Z.b2z b))
  | VInt z => Some (NInt z)
  | VFloat q => Some (NFloat q)
  | VNone | VStr _ => None
  end.

Definition of_num (n : num) : value :=
  match n with NInt z => VInt z | NFloat q => VFloat q end.

Definition num_Q (n : num) : Q :=
  match n with NInt z => inject_Z z | NFloat q => q end.

Definition num_leb (a b : num) : bool :=
  match a, b with
  | NInt x, NInt y => x <=? y
  | _, _ => Qle_bool (num_Q a) (num_Q b)
  end.

Definition num_ltb (a b : num) : bool :=
  match a, b with
  | NInt x, NInt y => x <? y
  | _, _ => negb (Qle_bool (num_Q b) (num_Q a))
  end.

Definition num_eqb (a b : num) : bool :=
  match a, b with
  | NInt x, NInt y => x =? y
  | _, _ => Qeq_bool (num_Q a) (num_Q b)
  end.

(** The least magnitude of an [int] that [float] refuses: the conversion
    rounds to the nearest float, and from this value on that would be
    [2^1024]. *)
Definition float_overflow : Z := 2 ^ 1024 - 2 ^ 970.

(** The operand of a float operation, an [int] being converted first:
    "int too large to convert to float". *)
Definition to_float (n : num) : result Q :=
  match n with
  | NInt z => if Z.abs z <? float_overflow then Ok (inject_Z z)
              else Raise OverflowError
  | NFloat q => Ok q
  end.

(** Two ints are added or subtracted as ints, without bound; any other
    pair of numbers as floats. *)
Definition num_arith (fz : Z -> Z -> Z) (fq : Q -> Q -> Q) (a b : num)
    : result num :=
  match a, b with
  | NInt x, NInt y => Ok (NInt (fz x y))
  | _, _ => x ← to_float a; y ← to_float b; Ok (NFloat (Qred (fq x y)))
  end.

(** [bool(v)], as an [if v:] evaluates it. *)
Definition truthy (v : value) : bool :=
  match v with
  | VNone => false
  | VBool b => b
  | VInt z => negb (z =? 0)
  | VFloat q => negb (Qeq_bool q 0)
  | VStr s => negb (String.eqb s "")
  end.

(** Ordering comparisons: numbers with numbers, strings with strings,
    anything else is a [TypeError]. *)
Definition compare_with (fnum : num -> num -> bool) (fstr : string -> string -> bool)
    (a b : value) : result bool :=
  match a, b with
  | VStr s, VStr t => Ok (fstr s t)
  | _, _ =>
      match as_num a, as_num b with
      | Some x, Some y => Ok (fnum x y)
      | _, _ => Raise TypeError
      end
  end.

Definition lt : value -> value -> result bool := compare_with num_ltb String.ltb.
Definition le : value -> value -> result bool := compare_with num_leb String.leb.
Definition gt (a b : value) : result bool := lt b a.
Definition ge (a b : value) : result bool := le b a.

(** [a == b] never raises. *)
Definition eq (a b : value) : bool :=
  match a, b with
  | VStr s, VStr t => String.eqb s t
  | VNone, VNone => true
  | _, _ =>
      match as_num a, as_num b with
      | Some x, Some y => num_eqb x y
      | _, _ => false
      end
  end.

(** [a + b]: numeric addition, or concatenation of two strings. *)
Definition add (a b : value) : result value :=
  match a, b with
  | VStr s, VStr t => Ok (VStr (s +:+ t))
  | _, _ =>
      match as_num a, as_num b with
      | Some x, Some y => n ← num_arith Z.add Qplus x y; Ok (of_num n)
      | _, _ => Raise TypeError
      end
  end.

Definition sub (a b : value) : result value :=
  match as_num a, as_num b with
  | Some x, Some y => n ← num_arith Z.sub Qminus x y; Ok (of_num n)
  | _, _ => Raise TypeError
  end.

(** [x or y] on two comparisons: [y] is evaluated only when [x] is false. *)
Definition or_else (x : result bool) (y : result bool) : result bool :=
  match x with
  | Ok true => Ok true
  | Ok false => y
  | Raise e => Raise e
  end.

(** Decimal expansion of the fractional part [r/d], at most [fuel] digits. *)
Fixpoint frac_digits (fuel : nat) (r d : Z) : string :=
  match fuel with
  | O => ""
  | S fuel' =>
      if r =? 0 then ""
      else pretty ((r * 10) / d) +:+ frac_digits fuel' ((r * 10) mod d) d
  end.

(** [repr] of a float, for the floats that are short decimals. *)
Definition float_repr (q : Q) : string :=
  let n := Z.abs (Qnum q) in
  let d := Zpos (Qden q) in
  let fr := frac_digits 17 (n mod d) d in
  (if Qnum q <? 0 then "-" else "") +:+ pretty (n / d) +:+ "." +:+
  (if String.eqb fr "" then "0" else fr).

(** [str(v)], as an f-string renders [{v}]. *)
Definition str (v : value) : string :=
  match v with
  | VNone => "None"
  | VBool true => "True"
  | VBool false => "False"
  | VInt z => pretty z
  | VFloat q => float_repr q
  | VStr s => s
  end.

(** Nearest integer, ties to the even one. *)
Definition round_half_even (q : Q) : Z :=
  let n := Qnum q in
  let d := Zpos (Qden q) in
  let f := n / d in
  let r2 := 2 * (n mod d) in
  if r2 <? d then f
  else if d <? r2 then f + 1
  else if Z.even f then f else f + 1.

(** [f"{q:.1f}"]. *)
Definition format_1f (q : Q) : string :=
  let t := Z.abs (round_half_even (q * 10)) in
  (if Qnum q <? 0 then "-" else "") +:+ pretty (t / 10) +:+ "." +:+ pretty (t mod 10).

End py.

Import py.

(** ** calculators.py *)

Module calculators.

(** [class RiskLevel(Enum)] and its [.value]. *)
Inductive RiskLevel : Type := LOW | MODERATE | HIGH | SEVERE.

Definition RiskLevel_value (r : RiskLevel) : string :=
  match r with
  | LOW => "Bajo"
  | MODERATE => "Moderado"
  | HIGH => "Alto"
  | SEVERE => "Severo"
  end.

(** [class CalculatorResult]. *)
Record CalculatorResult : Type := mkCalculatorResult {
  score : value;
  risk_level : RiskLevel;
  interpretation : string;
  recommendations : string
}.

(** [_validate_numeric_range(value, min_val, max_val, name)]. *)
Definition _validate_numeric_range (v min_val max_val : value) (name : string)
    : result unit :=
  out ← or_else (lt v min_val) (gt v max_val);
  if out : bool
  then Raise (ValueError (name +:+ " debe estar entre " +:+ str min_val +:+
                          " y " +:+ str max_val))
  else Ok tt.

Definition calculate_curb65
    (confusion urea respiratory_rate blood_pressure_systolic
     blood_pressure_diastolic age : value) : result CalculatorResult :=
  _validate_numeric_range urea (VInt 0) (VInt 500) "Urea";;
  _validate_numeric_range respiratory_rate (VInt 0) (VInt 100)
    "Frecuencia respiratoria";;
  _validate_numeric_range blood_pressure_systolic (VInt 40) (VInt 300)
    "Presión arterial sistólica";;
  _validate_numeric_range blood_pressure_diastolic (VInt 20) (VInt 200)
    "Presión arterial diastólica";;
  _validate_numeric_range age (VInt 0) (VInt 150) "Edad";;
  let score := 0 in
  let score := if truthy confusion then score + 1 else score in
  c_urea ← gt urea (VInt 19);
  let score := if c_urea : bool then score + 1 else score in
  c_rr ← ge respiratory_rate (VInt 30);
  let score := if c_rr : bool then score + 1 else score in
  c_bp ← or_else (lt blood_pressure_systolic (VInt 90))
                 (le blood_pressure_diastolic (VInt 60));
  let score := if c_bp : bool then score + 1 else score in
  c_age ← ge age (VInt 65);
  let score := if c_age : bool then score + 1 else score in
  Ok (if score =? 0 then
        mkCalculatorResult (VInt score) LOW
          "Riesgo bajo de mortalidad (0.7%)"
          "Manejo ambulatorio. Considerar tratamiento oral."
      else if score =? 1 then
        mkCalculatorResult (VInt score) LOW
          "Riesgo bajo de mortalidad (2.1%)"
          "Manejo ambulatorio. Considerar tratamiento oral."
      else if score =? 2 then
        mkCalculatorResult (VInt score) MODERATE
          "Riesgo moderado de mortalidad (9.2%)"
          "Considerar hospitalización. Tratamiento antibiótico endovenoso."
      else if score =? 3 then
        mkCalculatorResult (VInt score) HIGH
          "Riesgo alto de mortalidad (14.5%)"
          "Hospitalización recomendada. Considerar UCI si hay deterioro."
      else
        mkCalculatorResult (VInt score) SEVERE
          "Riesgo muy alto de mortalidad (40%)"
          "Hospitalización urgente. Considerar manejo en UCI.").

Definition calculate_wells_pe
    (clinical_signs_dvt pe_likely heart_rate_over_100 immobilization_surgery
     previous_pe_dvt hemoptysis malignancy : value) : result CalculatorResult :=
  let score := 0%Q in
  let score := if truthy clinical_signs_dvt then Qred (score + 3.0) else score in
  let score := if truthy pe_likely then Qred (score + 3.0) else score in
  let score := if truthy heart_rate_over_100 then Qred (score + 1.5) else score in
  let score := if truthy immobilization_surgery then Qred (score + 1.5) else score in
  let score := if truthy previous_pe_dvt then Qred (score + 1.5) else score in
  let score := if truthy hemoptysis then Qred (score + 1.0) else score in
  let score := if truthy malignancy then Qred (score + 1.0) else score in
  Ok (if Qle_bool score 4.0 then
        mkCalculatorResult (VFloat score) LOW
          ("Probabilidad baja de EP (" +:+ float_repr score +:+
           " puntos). Probabilidad < 12%")
          "Considerar dímero D. Si negativo, EP poco probable."
      else if Qle_bool score 6.0 then
        mkCalculatorResult (VFloat score) MODERATE
          ("Probabilidad moderada de EP (" +:+ float_repr score +:+
           " puntos). Probabilidad 12-37%")
          "Realizar estudios de imagen (AngioTC o gammagrafía)."
      else
        mkCalculatorResult (VFloat score) HIGH
          ("Probabilidad alta de EP (" +:+ float_repr score +:+
           " puntos). Probabilidad > 37%")
          "AngioTC urgente. Considerar anticoagulación empírica si hay retraso.").

(** [lo <= v <= hi], a chained comparison. *)
Definition between (lo v hi : value) : result bool :=
  c ← le lo v;
  if c : bool then le v hi else Ok false.

Definition calculate_glasgow_coma_scale
    (eye_opening verbal_response motor_response : value)
    : result CalculatorResult :=
  c ← between (VInt 1) eye_opening (VInt 4);
  if negb c then Raise (ValueError "Apertura ocular debe estar entre 1-4") else
  c ← between (VInt 1) verbal_response (VInt 5);
  if negb c then Raise (ValueError "Respuesta verbal debe estar entre 1-5") else
  c ← between (VInt 1) motor_response (VInt 6);
  if negb c then Raise (ValueError "Respuesta motora debe estar entre 1-6") else
  s ← add eye_opening verbal_response;
  score ← add s motor_response;
  c13 ← ge score (VInt 13);
  if c13 : bool then
    Ok (mkCalculatorResult score LOW
          ("Lesión cerebral leve (GCS " +:+ str score +:+ ")")
          "Observación. Monitoreo neurológico rutinario.")
  else
  c9 ← ge score (VInt 9);
  if c9 : bool then
    Ok (mkCalculatorResult score MODERATE
          ("Lesión cerebral moderada (GCS " +:+ str score +:+ ")")
          "Hospitalización. Monitoreo neurológico frecuente. Considerar TC.")
  else
    Ok (mkCalculatorResult score SEVERE
          ("Lesión cerebral severa (GCS " +:+ str score +:+ ")")
          "UCI. Manejo de vía aérea. TC urgente. Monitoreo PIC.").

Definition calculate_nihss
    (consciousness orientation commands gaze visual_fields facial_palsy
     motor_arm_left motor_arm_right motor_leg_left motor_leg_right
     ataxia sensory language dysarthria extinction : value)
    : result CalculatorResult :=
  s ← add consciousness orientation;
  s ← add s commands;
  s ← add s gaze;
  s ← add s visual_fields;
  s ← add s facial_palsy;
  s ← add s motor_arm_left;
  s ← add s motor_arm_right;
  s ← add s motor_leg_left;
  s ← add s motor_leg_right;
  s ← add s ataxia;
  s ← add s sensory;
  s ← add s language;
  s ← add s dysarthria;
  score ← add s extinction;
  if eq score (VInt 0) then
    Ok (mkCalculatorResult score LOW
          ("Sin síntomas de stroke (NIHSS " +:+ str score +:+ ")")
          "Paciente sin déficit neurológico detectable.")
  else
  c4 ← le score (VInt 4);
  if c4 : bool then
    Ok (mkCalculatorResult score LOW
          ("Stroke menor (NIHSS " +:+ str score +:+ ")")
          "Stroke leve. Considerar trombolisis según criterios.")
  else
  c15 ← le score (VInt 15);
  if c15 : bool then
    Ok (mkCalculatorResult score MODERATE
          ("Stroke moderado (NIHSS " +:+ str score +:+ ")")
          "Stroke moderado. Candidato para trombolisis/trombectomía.")
  else
  c20 ← le score (VInt 20);
  if c20 : bool then
    Ok (mkCalculatorResult score HIGH
          ("Stroke moderado-severo (NIHSS " +:+ str score +:+ ")")
          "Stroke severo. Trombolisis/trombectomía urgente si es candidato.")
  else
    Ok (mkCalculatorResult score SEVERE
          ("Stroke severo (NIHSS " +:+ str score +:+ ")")
          "Stroke muy severo. Evaluar tratamiento agresivo vs. cuidados paliativos.").

Definition calculate_chads2_vasc
    (congestive_heart_failure hypertension age diabetes stroke_tia_history
     vascular_disease sex_female : value) : result CalculatorResult :=
  _validate_numeric_range age (VInt 0) (VInt 150) "Edad";;
  let score := 0 in
  let score := if truthy congestive_heart_failure then score + 1 else score in
  let score := if truthy hypertension then score + 1 else score in
  c75 ← ge age (VInt 75);
  score ← (if c75 : bool then Ok (score + 2)
           else c65 ← ge age (VInt 65);
                Ok (if c65 : bool then score + 1 else score));
  let score := if truthy diabetes then score + 1 else score in
  let score := if truthy stroke_tia_history then score + 2 else score in
  let score := if truthy vascular_disease then score + 1 else score in
  let score := if truthy sex_female then score + 1 else score in
  Ok (if score =? 0 then
        mkCalculatorResult (VInt score) LOW
          ("Riesgo muy bajo de stroke (CHA2DS2-VASc " +:+ pretty score +:+
           "). Riesgo anual: 0%")
          "No anticoagulación. Considerar aspirina."
      else if score =? 1 then
        mkCalculatorResult (VInt score) LOW
          ("Riesgo bajo de stroke (CHA2DS2-VASc " +:+ pretty score +:+
           "). Riesgo anual: 1.3%")
          "Considerar anticoagulación oral o aspirina."
      else if score =? 2 then
        mkCalculatorResult (VInt score) MODERATE
          ("Riesgo moderado de stroke (CHA2DS2-VASc " +:+ pretty score +:+
           "). Riesgo anual: 2.2%")
          "Anticoagulación oral recomendada."
      else
        mkCalculatorResult (VInt score) HIGH
          ("Riesgo alto de stroke (CHA2DS2-VASc " +:+ pretty score +:+
           "). Riesgo anual: " +:+
           format_1f (3.2 + inject_Z (score - 3) * 0.8) +:+ "%")
          "Anticoagulación oral fuertemente recomendada.").

Definition calculate_apache_ii
    (temperature mean_arterial_pressure heart_rate respiratory_rate
     oxygenation arterial_ph sodium potassium creatinine hematocrit
     white_blood_cells glasgow_coma_scale age chronic_health : value)
    : result CalculatorResult :=
  let score := 0 in
  (* Temperatura *)
  t4 ← or_else (ge temperature (VInt 41)) (le temperature (VFloat 29.9));
  score ← (if t4 : bool then Ok (score + 4) else
           t3 ← or_else (ge temperature (VInt 39)) (le temperature (VFloat 31.9));
           if t3 : bool then Ok (score + 3) else
           t1 ← or_else (ge temperature (VFloat 38.5)) (le temperature (VFloat 33.9));
           Ok (if t1 : bool then score + 1 else score));
  (* Presión arterial media *)
  m4 ← or_else (ge mean_arterial_pressure (VInt 160))
               (le mean_arterial_pressure (VInt 49));
  score ← (if m4 : bool then Ok (score + 4) else
           m2 ← or_else (ge mean_arterial_pressure (VInt 130))
                        (le mean_arterial_pressure (VInt 69));
           if m2 : bool then Ok (score + 2) else
           m109 ← le mean_arterial_pressure (VInt 109);
           Ok (if m109 : bool then score + 2 else score));
  (* Frecuencia cardíaca *)
  h4 ← or_else (ge heart_rate (VInt 180)) (le heart_rate (VInt 39));
  score ← (if h4 : bool then Ok (score + 4) else
           h2 ← or_else (ge heart_rate (VInt 140)) (le heart_rate (VInt 54));
           if h2 : bool then Ok (score + 2) else
           h1 ← or_else (ge heart_rate (VInt 110)) (le heart_rate (VInt 69));
           Ok (if h1 : bool then score + 1 else score));
  (* Glasgow Coma Scale *)
  gcs_points ← sub (VInt 15) glasgow_coma_scale;
  score ← add (VInt score) gcs_points;
  (* Edad *)
  a75 ← ge age (VInt 75);
  score ← (if a75 : bool then add score (VInt 6) else
           a65 ← ge age (VInt 65);
           if a65 : bool then add score (VInt 5) else
           a55 ← ge age (VInt 55);
           if a55 : bool then add score (VInt 3) else
           a45 ← ge age (VInt 45);
           if a45 : bool then add score (VInt 2) else Ok score);
  (* Enfermedad crónica *)
  score ← (if truthy chronic_health then add score (VInt 5) else Ok score);
  c4 ← le score (VInt 4);
  if c4 : bool then
    Ok (mkCalculatorResult score LOW
          ("Riesgo bajo de mortalidad (APACHE II " +:+ str score +:+
           "). Mortalidad estimada: <4%")
          "Paciente estable. Monitoreo rutinario.")
  else
  c14 ← le score (VInt 14);
  if c14 : bool then
    Ok (mkCalculatorResult score MODERATE
          ("Riesgo moderado de mortalidad (APACHE II " +:+ str score +:+
           "). Mortalidad estimada: 8-15%")
          "Monitoreo cercano. Considerar cuidados intermedios.")
  else
  c24 ← le score (VInt 24);
  if c24 : bool then
    Ok (mkCalculatorResult score HIGH
          ("Riesgo alto de mortalidad (APACHE II " +:+ str score +:+
           "). Mortalidad estimada: 15-25%")
          "UCI recomendada. Soporte intensivo.")
  else
    Ok (mkCalculatorResult score SEVERE
          ("Riesgo muy alto de mortalidad (APACHE II " +:+ str score +:+
           "). Mortalidad estimada: >40%")
          "UCI. Soporte vital máximo. Considerar pronóstico.").

End calculators.

(** ** models.py: the algorithm tables

    Only the columns that the modelled queries read or write are kept.
    The integer columns with a default ([view_count], [usage_count],
    [order_index]) and the boolean [is_active] are populated by the ORM at
    insertion, so they are modelled as [Z] and [bool]; [start_node_id] is
    nullable.  Algorithms are looked up by primary key only, hence a finite
    map keyed by [id]; the node and edge tables keep their storage order,
    which is what a query without [order_by] returns. *)

Module models.

Record Algorithm : Type := mkAlgorithm {
  uuid : string;
  title : string;
  algorithm_type : string;
  start_node_id : option Z;
  is_published : bool;
  is_featured : bool;
  view_count : Z;
  usage_count : Z;
  updated_at : Z
}.

Record AlgorithmNode : Type := mkAlgorithmNode {
  node_id : Z;
  node_algorithm_id : Z;
  node_type : string;
  node_title : string;
  node_order_index : Z;
  node_is_active : bool
}.

Record AlgorithmEdge : Type := mkAlgorithmEdge {
  edge_id : Z;
  edge_algorithm_id : Z;
  from_node_id : Z;
  to_node_id : Z;
  label : option string;
  edge_order_index : Z;
  edge_is_active : bool
}.

(** The committed content of the three tables, as a [Session] sees it. *)
Record Session : Type := mkSession {
  algorithms : gmap Z Algorithm;
  algorithm_nodes : list AlgorithmNode;
  algorithm_edges : list AlgorithmEdge
}.

#[global] Instance AlgorithmNode_eq_dec : EqDecision AlgorithmNode.
Proof. solve_decision. Defined.

#[global] Instance AlgorithmEdge_eq_dec : EqDecision AlgorithmEdge.
Proof. solve_decision. Defined.

End models.

Import models.

(** ** crud.py: algorithms, nodes and edges *)

Module crud.

(** [.order_by(column)]: ascending, rows with equal keys stay in storage order. *)
Definition order_by {A : Type} (column : A -> Z) (rows : list A) : list A :=
  @merge_sort A (fun x y => column x <= column y)
    (fun x y => decide (column x <= column y)) rows.

(** [.first()]. *)
Definition first {A : Type} (rows : list A) : option A := head rows.

Definition get_algorithm_by_id (db : Session) (algorithm_id : Z) : option Algorithm :=
  algorithms db !! algorithm_id.

Definition increment_algorithm_view_count (db : Session) (utcnow : Z) (algorithm_id : Z)
    : Session * option Algorithm :=
  match get_algorithm_by_id db algorithm_id with
  | None => (db, None)
  | Some db_algorithm =>
      let db_algorithm :=
        mkAlgorithm (uuid db_algorithm) (title db_algorithm)
          (algorithm_type db_algorithm) (start_node_id db_algorithm)
          (is_published db_algorithm) (is_featured db_algorithm)
          (view_count db_algorithm + 1) (usage_count db_algorithm) utcnow in
      (mkSession (<[algorithm_id := db_algorithm]> (algorithms db))
         (algorithm_nodes db) (algorithm_edges db),
       Some db_algorithm)
  end.

Definition increment_algorithm_usage_count (db : Session) (utcnow : Z) (algorithm_id : Z)
    : Session * option Algorithm :=
  match get_algorithm_by_id db algorithm_id with
  | None => (db, None)
  | Some db_algorithm =>
      let db_algorithm :=
        mkAlgorithm (uuid db_algorithm) (title db_algorithm)
          (algorithm_type db_algorithm) (start_node_id db_algorithm)
          (is_published db_algorithm) (is_featured db_algorithm)
          (view_count db_algorithm) (usage_count db_algorithm + 1) utcnow in
      (mkSession (<[algorithm_id := db_algorithm]> (algorithms db))
         (algorithm_nodes db) (algorithm_edges db),
       Some db_algorithm)
  end.

Definition get_algorithm_node_by_id (db : Session) (id : Z) : option AlgorithmNode :=
  first (List.filter (fun n => node_id n =? id) (algorithm_nodes db)).

Definition get_algorithm_nodes_by_algorithm (db : Session) (algorithm_id : Z)
    : list AlgorithmNode :=
  order_by node_order_index
    (List.filter (fun n => (node_algorithm_id n =? algorithm_id) && node_is_active n)
       (algorithm_nodes db)).

(** [not algorithm.start_node_id]: true for [None] and for [0]. *)
Definition start_node_id_unset (a : Algorithm) : bool :=
  match start_node_id a with
  | None => true
  | Some i => i =? 0
  end.

Definition get_algorithm_start_node (db : Session) (algorithm_id : Z)
    : option AlgorithmNode :=
  let fallback :=
    first (List.filter
             (fun n => (node_algorithm_id n =? algorithm_id) &&
                       String.eqb (node_type n) "start" && node_is_active n)
             (algorithm_nodes db)) in
  match get_algorithm_by_id db algorithm_id with
  | None => fallback
  | Some algorithm =>
      if start_node_id_unset algorithm then fallback
      else match start_node_id algorithm with
           | Some i => get_algorithm_node_by_id db i
           | None => fallback
           end
  end.

Definition get_algorithm_edge_by_id (db : Session) (id : Z) : option AlgorithmEdge :=
  first (List.filter (fun e => edge_id e =? id) (algorithm_edges db)).

Definition get_algorithm_edges_by_algorithm (db : Session) (algorithm_id : Z)
    : list AlgorithmEdge :=
  order_by edge_order_index
    (List.filter (fun e => (edge_algorithm_id e =? algorithm_id) && edge_is_active e)
       (algorithm_edges db)).

Definition get_outgoing_edges_from_node (db : Session) (id : Z) : list AlgorithmEdge :=
  order_by edge_order_index
    (List.filter (fun e => (from_node_id e =? id) && edge_is_active e)
       (algorithm_edges db)).

Definition get_incoming_edges_to_node (db : Session) (id : Z) : list AlgorithmEdge :=
  order_by edge_order_index
    (List.filter (fun e => (to_node_id e =? id) && edge_is_active e)
       (algorithm_edges db)).

(** *** Collection assignment and the commit that flushes it

    [Algorithm.nodes] and [Algorithm.edges] are mapped collections with
    [cascade="all, delete-orphan"]; the session does not autoflush.
    Assigning a list to such a collection loads the rows it holds (those
    whose [algorithm_id] is the algorithm's) and leaves the ones that the
    list omits as orphans, which the next [db.commit()] of the session
    deletes. *)
Record Pending : Type := mkPending {
  orphan_nodes : list AlgorithmNode;
  orphan_edges : list AlgorithmEdge
}.

Definition nothing_pending : Pending := mkPending [] [].

(** The rows of [old] that the assigned list [new] omits. *)
Definition orphans {A : Type} `{EqDecision A} (old new : list A) : list A :=
  List.filter (fun x => negb (bool_decide (x ∈ new))) old.

(** The algorithm object with its [nodes] and [edges] attributes assigned. *)
Record AlgorithmFull : Type := mkAlgorithmFull {
  algorithm : Algorithm;
  nodes : list AlgorithmNode;
  edges : list AlgorithmEdge
}.

(** Returns the object together with what its two assignments leave
    pending in the session. *)
Definition get_algorithm_with_nodes_and_edges (db : Session) (algorithm_id : Z)
    : Pending * option AlgorithmFull :=
  match get_algorithm_by_id db algorithm_id with
  | None => (nothing_pending, None)
  | Some algorithm =>
      let nodes := get_algorithm_nodes_by_algorithm db algorithm_id in
      let edges := get_algorithm_edges_by_algorithm db algorithm_id in
      (mkPending
         (orphans
            (List.filter (fun n => node_algorithm_id n =? algorithm_id)
               (algorithm_nodes db))
            nodes)
         (orphans
            (List.filter (fun e => edge_algorithm_id e =? algorithm_id)
               (algorithm_edges db))
            edges),
       Some (mkAlgorithmFull algorithm nodes edges))
  end.

Inductive SQLAlchemyError : Type :=
  | IntegrityError.

(** What [db.commit()] does with the pending collection changes.  The
    orphans are deleted by primary key.  A deleted node leaves the
    [outgoing_edges] and [incoming_edges] collections it heads (they have
    no delete cascade): every edge that refers to it and is not deleted in
    the same flush gets that foreign key set to NULL, which the
    [nullable=False] columns [from_node_id] and [to_node_id] refuse.  The
    commit then raises and nothing is written. *)
Definition flush (db : Session) (pending : Pending)
    : SQLAlchemyError + Session :=
  let node_ids := node_id <$> orphan_nodes pending in
  let edge_ids := edge_id <$> orphan_edges pending in
  let kept_edges :=
    List.filter (fun e => negb (bool_decide (edge_id e ∈ edge_ids)))
      (algorithm_edges db) in
  if existsb (fun e => bool_decide (from_node_id e ∈ node_ids) ||
                       bool_decide (to_node_id e ∈ node_ids)) kept_edges
  then inl IntegrityError
  else inr (mkSession (algorithms db)
              (List.filter (fun n => negb (bool_decide (node_id n ∈ node_ids)))
                 (algorithm_nodes db))
              kept_edges).

(** [.order_by(desc(column))]. *)
Definition order_by_desc {A : Type} (column : A -> Z) (rows : list A) : list A :=
  @merge_sort A (fun x y => column y <= column x)
    (fun x y => decide (column y <= column x)) rows.

(** The rows of the [algorithms] table. *)
Definition algorithm_rows (db : Session) : list Algorithm :=
  (map_to_list (algorithms db)).*2.

Definition get_algorithm_by_uuid (db : Session) (uuid : string) : option Algorithm :=
  first (List.filter (fun a => String.eqb (models.uuid a) uuid) (algorithm_rows db)).

(** [skip] and [limit] are the non-negative offsets and limits; a negative
    one is the database's to refuse. *)
Definition get_featured_algorithms (db : Session) (skip limit : nat)
    : list Algorithm :=
  take limit
    (drop skip
       (order_by_desc usage_count
          (List.filter (fun a => is_published a && is_featured a)
             (algorithm_rows db)))).

End crud.

(** ** main.py: the algorithm endpoints *)

Module main.

Inductive HTTPException : Type :=
  | HTTP_404_NOT_FOUND (detail : string).

(** What an endpoint raises: an [HTTPException], or the error of a commit
    that failed, which no endpoint catches. *)
Inductive Exception : Type :=
  | HTTP (e : HTTPException)
  | SQLAlchemy (e : crud.SQLAlchemyError).

(** The response body of the full fetch.  The commit expires the object:
    its columns are read again after the counter was written, its [nodes]
    and [edges] are loaded again from the tables, in storage order, and the
    start node is resolved on the tables as committed. *)
Record FullResponse : Type := mkFullResponse {
  body : option Algorithm;
  body_nodes : list AlgorithmNode;
  body_edges : list AlgorithmEdge;
  start_node : option AlgorithmNode
}.

(** [GET /algorithms/{algorithm_id}/full].  The commit inside
    [crud.increment_algorithm_usage_count] writes the counter and flushes
    the collections assigned by [crud.get_algorithm_with_nodes_and_edges]
    in one transaction; the two touch different tables, so the flush is
    written first and the counter after it.  When the flush fails the
    commit raises, the endpoint passes the error on and nothing is
    written. *)
Definition get_algorithm_with_nodes_and_edges (db : Session) (utcnow : Z) (algorithm_id : Z)
    : Session * (Exception + FullResponse) :=
  match crud.get_algorithm_with_nodes_and_edges db algorithm_id with
  | (_, None) => (db, inl (HTTP (HTTP_404_NOT_FOUND "Algoritmo no encontrado")))
  | (pending, Some algorithm) =>
      match crud.flush db pending with
      | inl e => (db, inl (SQLAlchemy e))
      | inr flushed =>
          let '(db, _) :=
            crud.increment_algorithm_usage_count flushed utcnow algorithm_id in
          (db, inr (mkFullResponse
                      (crud.get_algorithm_by_id db algorithm_id)
                      (List.filter (fun n => node_algorithm_id n =? algorithm_id)
                         (algorithm_nodes db))
                      (List.filter (fun e => edge_algorithm_id e =? algorithm_id)
                         (algorithm_edges db))
                      (crud.get_algorithm_start_node db algorithm_id)))
      end
  end.

(** [GET /algorithms/{algorithm_id}]: the body is the row as the session
    holds it once the view was counted. *)
Definition get_algorithm (db : Session) (utcnow : Z) (algorithm_id : Z)
    : Session * (HTTPException + option Algorithm) :=
  match crud.get_algorithm_by_id db algorithm_id with
  | None => (db, inl (HTTP_404_NOT_FOUND "Algoritmo no encontrado"))
  | Some db_algorithm =>
      let '(db, _) := crud.increment_algorithm_view_count db utcnow algorithm_id in
      (db, inr (crud.get_algorithm_by_id db algorithm_id))
  end.

(** [GET /algorithms/{algorithm_id}/start-node]. *)
Definition get_algorithm_start_node (db : Session) (algorithm_id : Z)
    : HTTPException + AlgorithmNode :=
  match crud.get_algorithm_start_node db algorithm_id with
  | None => inl (HTTP_404_NOT_FOUND "Nodo inicial no encontrado")
  | Some start_node => inr start_node
  end.

(** [GET /algorithms/{algorithm_id}/nodes/{node_id}/edges]. *)
Definition get_outgoing_edges_from_node (db : Session) (algorithm_id node_id : Z)
    : HTTPException + list AlgorithmEdge :=
  match crud.get_algorithm_node_by_id db node_id with
  | None =>
      inl (HTTP_404_NOT_FOUND "Nodo no encontrado o no pertenece al algoritmo")
  | Some node =>
      if negb (node_algorithm_id node =? algorithm_id)
      then inl (HTTP_404_NOT_FOUND "Nodo no encontrado o no pertenece al algoritmo")
      else inr (crud.get_outgoing_edges_from_node db node_id)
  end.

End main.

Import calculators.

(** ** Vocabulary of the statements *)

#[global] Instance Qle_decision (x y : Q) : Decision (x <= y)%Q.
Proof.
  destruct (Qlt_le_dec y x) as [H|H];
    [right; apply Qlt_not_le, H | left; exact H].
Defined.

#[global] Instance Qlt_decision (x y : Q) : Decision (x < y)%Q.
Proof.
  destruct (Qlt_le_dec x y) as [H|H];
    [left; exact H | right; apply Qle_not_lt, H].
Defined.

(** One point when the condition holds, none otherwise. *)
Definition indicator (P : Prop) `{Decision P} : Z := if decide P then 1 else 0.

(** [sub] occurs in [s]. *)
Definition contains (s sub : string) : Prop :=
  exists pre post : string, s = pre +:+ sub +:+ post.

(** The result of a call that returned, [None] when it raised. *)
Definition returned {A : Type} (r : result A) : option A :=
  match r with Ok a => Some a | Raise _ => None end.

(** The message of the range violation raised for [name]. *)
Definition range_error (name : string) (lo hi : Z) : exn :=
  ValueError (name +:+ " debe estar entre " +:+ pretty lo +:+ " y " +:+ pretty hi).

(** A number of tenths written with one decimal: [32] is ["3.2"]. *)
Definition tenths_string (t : Z) : string :=
  pretty (t / 10) +:+ "." +:+ pretty (t mod 10).

(** The age contribution of CHA2DS2-VASc, in the words of the scale. *)
Definition chads2_vasc_age_points (age : Z) : Z :=
  if decide (75 <= age) then 2 else if decide (65 <= age) then 1 else 0.

(** The point ladders of the simplified APACHE II, as comparisons on the
    typed inputs: temperature as the specification words it, the others
    read off the branches of [calculate_apache_ii]. *)
Definition apache_temperature_points (t : Q) : Z :=
  if decide (41 <= t \/ t <= 29.9)%Q then 4
  else if decide (39 <= t \/ t <= 31.9)%Q then 3
  else if decide (38.5 <= t \/ t <= 33.9)%Q then 1
  else 0.

Definition apache_map_points (m : Q) : Z :=
  if decide (160 <= m \/ m <= 49)%Q then 4
  else if decide (130 <= m \/ m <= 69)%Q then 2
  else if decide (m <= 109)%Q then 2
  else 0.

Definition apache_heart_rate_points (hr : Z) : Z :=
  if decide (180 <= hr \/ hr <= 39) then 4
  else if decide (140 <= hr \/ hr <= 54) then 2
  else if decide (110 <= hr \/ hr <= 69) then 1
  else 0.

Definition apache_age_points (age : Z) : Z :=
  if decide (75 <= age) then 6
  else if decide (65 <= age) then 5
  else if decide (55 <= age) then 3
  else if decide (45 <= age) then 2
  else 0.

(** The operations of the graph model, each with the clock value its call
    reads, and the store a call leaves behind.  Each call has a session of
    its own: the queries only read, and a collection assignment that no
    commit follows is dropped with the session. *)
Inductive core_op : Type :=
  | GetAlgorithmById (algorithm_id : Z)
  | GetAlgorithmNodeById (id : Z)
  | GetAlgorithmEdgeById (id : Z)
  | GetAlgorithmNodesByAlgorithm (algorithm_id : Z)
  | GetAlgorithmEdgesByAlgorithm (algorithm_id : Z)
  | GetAlgorithmStartNode (algorithm_id : Z)
  | GetOutgoingEdgesFromNode (id : Z)
  | GetIncomingEdgesToNode (id : Z)
  | CrudGetAlgorithmWithNodesAndEdges (algorithm_id : Z)
  | GetAlgorithmFull (utcnow : Z) (algorithm_id : Z)
  | IncrementAlgorithmViewCount (utcnow : Z) (algorithm_id : Z)
  | IncrementAlgorithmUsageCount (utcnow : Z) (algorithm_id : Z).

Definition run_op (db : Session) (op : core_op) : Session :=
  match op with
  | GetAlgorithmFull utcnow algorithm_id =>
      fst (main.get_algorithm_with_nodes_and_edges db utcnow algorithm_id)
  | IncrementAlgorithmViewCount utcnow algorithm_id =>
      fst (crud.increment_algorithm_view_count db utcnow algorithm_id)
  | IncrementAlgorithmUsageCount utcnow algorithm_id =>
      fst (crud.increment_algorithm_usage_count db utcnow algorithm_id)
  | _ => db
  end.

Definition run_ops (db : Session) (ops : list core_op) : Session :=
  fold_left run_op ops db.

(** The commit of a full fetch of [algorithm_id] cannot be written: an
    inactive node of the algorithm, which the fetch orphans, is the source
    or the target of an edge that the same fetch does not delete. *)
Definition commit_fails (db : Session) (algorithm_id : Z) : Prop :=
  exists n e,
    In n (algorithm_nodes db) /\ node_algorithm_id n = algorithm_id /\
    node_is_active n = false /\
    In e (algorithm_edges db) /\
    (from_node_id e = node_id n \/ to_node_id e = node_id n) /\
    forall e', In e' (algorithm_edges db) ->
               edge_algorithm_id e' = algorithm_id ->
               edge_is_active e' = false -> edge_id e' <> edge_id e.


(** The stored [usage_count] of an algorithm, [None] when there is no row. *)
Definition usage_of (db : Session) (algorithm_id : Z) : option Z :=
  usage_count <$> algorithms db !! algorithm_id.

Definition views_of (db : Session) (algorithm_id : Z) : option Z :=
  view_count <$> algorithms db !! algorithm_id.

(** Ascending [order_index]. *)
Definition edges_ascending : list AlgorithmEdge -> Prop :=
  StronglySorted (fun a b => edge_order_index a <= edge_order_index b).

Definition nodes_ascending : list AlgorithmNode -> Prop :=
  StronglySorted (fun a b => node_order_index a <= node_order_index b).

(** An active start node of the algorithm. *)
Definition is_start_node_of (algorithm_id : Z) (n : AlgorithmNode) : Prop :=
  node_algorithm_id n = algorithm_id /\ node_type n = "start"%string /\
  node_is_active n = true.

(** [a'] is the row [a] after some views and uses were counted: only the
    two counters, which did not decrease, and [updated_at] may differ. *)
Definition counted_from (a a' : Algorithm) : Prop :=
  uuid a' = uuid a /\ title a' = title a /\
  algorithm_type a' = algorithm_type a /\
  start_node_id a' = start_node_id a /\
  is_published a' = is_published a /\ is_featured a' = is_featured a /\
  view_count a <= view_count a' /\ usage_count a <= usage_count a'.

(** Descending [usage_count]. *)
Definition usage_descending : list Algorithm -> Prop :=
  StronglySorted (fun a b => usage_count b <= usage_count a).

(** ** Comparisons and range validation on well-typed arguments *)

Lemma Qle_bool_reflect (x y : Q) : reflect (x <= y)%Q (Qle_bool x y).
Proof.
  destruct (Qle_bool x y) eqn:E; constructor.
  - by apply Qle_bool_iff.
  - intros H. apply Qle_bool_iff in H. congruence.
Qed.

Lemma validate_int_ok (z lo hi : Z) (name : string) :
  lo <= z <= hi ->
  _validate_numeric_range (VInt z) (VInt lo) (VInt hi) name = Ok tt.
Proof.
  intros [Hlo Hhi]. unfold _validate_numeric_range, lt, gt, compare_with; simpl.
  destruct (Z.ltb_spec z lo); [lia|].
  destruct (Z.ltb_spec hi z); [lia|]. reflexivity.
Qed.

Lemma validate_int_out (z lo hi : Z) (name : string) :
  z < lo \/ hi < z ->
  _validate_numeric_range (VInt z) (VInt lo) (VInt hi) name =
  Raise (range_error name lo hi).
Proof.
  intros H. unfold _validate_numeric_range, lt, gt, compare_with; simpl.
  destruct (Z.ltb_spec z lo); [reflexivity|].
  destruct (Z.ltb_spec hi z); [reflexivity|lia].
Qed.

Lemma validate_float_ok (q : Q) (lo hi : Z) (name : string) :
  (inject_Z lo <= q <= inject_Z hi)%Q ->
  _validate_numeric_range (VFloat q) (VInt lo) (VInt hi) name = Ok tt.
Proof.
  intros [Hlo Hhi]. unfold _validate_numeric_range, lt, gt, compare_with; simpl.
  destruct (Qle_bool_reflect (inject_Z lo) q); [|contradiction].
  destruct (Qle_bool_reflect q (inject_Z hi)); [|contradiction]. reflexivity.
Qed.

Lemma validate_float_out (q : Q) (lo hi : Z) (name : string) :
  (q < inject_Z lo \/ inject_Z hi < q)%Q ->
  _validate_numeric_range (VFloat q) (VInt lo) (VInt hi) name =
  Raise (range_error name lo hi).
Proof.
  intros H. unfold _validate_numeric_range, lt, gt, compare_with; simpl.
  destruct (Qle_bool_reflect (inject_Z lo) q) as [Hlo|Hlo]; simpl; [|reflexivity].
  destruct (Qle_bool_reflect q (inject_Z hi)) as [Hhi|Hhi]; simpl; [|reflexivity].
  destruct H as [H|H]; [apply Qlt_not_le in H | apply Qlt_not_le in H]; contradiction.
Qed.

(** A string or [None] where a validated number is expected. *)
Lemma validate_non_numeric (v lo hi : value) (name : string) :
  as_num v = None -> as_num lo <> None ->
  _validate_numeric_range v lo hi name = Raise TypeError.
Proof.
  intros Hv Hlo. unfold _validate_numeric_range, lt, compare_with.
  destruct v; try discriminate; destruct lo; simpl in *; congruence.
Qed.

(** Case analysis on the tests of a calculator body. *)
Ltac cmp_step :=
  match goal with
  | |- context [Z.ltb ?a ?b] => destruct (Z.ltb_spec a b); try (exfalso; lia)
  | |- context [Z.leb ?a ?b] => destruct (Z.leb_spec a b); try (exfalso; lia)
  | |- context [Qle_bool ?a ?b] =>
      destruct (Qle_bool_reflect a b); try (exfalso; unfold inject_Z in *; lra)
  end.

Ltac decide_step :=
  match goal with
  | |- context [@decide ?P ?d] => destruct (@decide P d)
  end.

Ltac py_cmp :=
  unfold gt, ge; unfold lt, le, compare_with; cbn [as_num num_ltb num_leb num_Q].
Ltac py_bind := cbn [mbind result_bind mret result_ret or_else negb].

(** ** CURB-65 *)

(** C1. For every valid CURB-65 input the call returns; the score is the
    number of satisfied indicators (confusion, urea > 19, respiratory
    rate >= 30, systolic < 90 or diastolic <= 60, age >= 65), hence between
    0 and 5; the risk level is Low for 0 and 1, Moderate for 2, High for 3
    and Severe from 4 on.  In particular confusion=True, urea=8.0,
    respiratory_rate=32, systolic=85, diastolic=55, age=72 scores 4,
    Severe. *)
Theorem calculate_curb65_counts_indicators :
  (forall (confusion : bool) (urea : Q) (rr sys dia age : Z),
    (0 <= urea <= 500)%Q -> 0 <= rr <= 100 -> 40 <= sys <= 300 ->
    20 <= dia <= 200 -> 0 <= age <= 150 ->
    let n := indicator (confusion = true) + indicator (19 < urea)%Q +
             indicator (30 <= rr) + indicator (sys < 90 \/ dia <= 60) +
             indicator (65 <= age) in
    exists r,
      calculate_curb65 (VBool confusion) (VFloat urea) (VInt rr) (VInt sys)
        (VInt dia) (VInt age) = Ok r /\
      score r = VInt n /\ 0 <= n <= 5 /\
      (n = 0 \/ n = 1 -> risk_level r = LOW) /\
      (n = 2 -> risk_level r = MODERATE) /\
      (n = 3 -> risk_level r = HIGH) /\
      (4 <= n -> risk_level r = SEVERE)) /\
  exists r,
    calculate_curb65 (VBool true) (VFloat 8.0) (VInt 32) (VInt 85) (VInt 55)
      (VInt 72) = Ok r /\
    score r = VInt 4 /\ risk_level r = SEVERE.
Proof.
  split.
  - intros confusion urea rr sys dia age Hu Hr Hs Hd Ha n. subst n.
    unfold calculate_curb65.
    rewrite (validate_float_ok urea 0 500 _ Hu), !validate_int_ok by assumption.
    py_cmp. py_bind. unfold indicator, truthy.
    repeat decide_step.
    all: repeat (cmp_step; py_bind).
    all: destruct confusion; try congruence.
    all: eexists; split; [reflexivity|]; cbn; repeat split; (reflexivity || lia).
  - eexists; split; [vm_compute; reflexivity|]. split; reflexivity.
Qed.

Lemma calculate_curb65_counts_indicators_witness :
  exists r,
    calculate_curb65 (VBool true) (VFloat 8.0) (VInt 32) (VInt 85) (VInt 55)
      (VInt 72) = Ok r /\
    score r = VInt 4 /\ risk_level r = SEVERE.
Proof.
  destruct (proj1 calculate_curb65_counts_indicators true 8.0%Q 32 85 55 72)
    as (r & Hr & Hs & _ & _ & _ & _ & Hsev).
  - split; unfold Qle; simpl; lia.
  - lia.
  - lia.
  - lia.
  - lia.
  - exists r. split; [exact Hr|]. split; [exact Hs|].
    apply Hsev. vm_compute. discriminate.
Defined.

(** Evaluate a call on closed arguments and name what it returns. *)
Ltac returns_value :=
  match goal with
  | |- exists r, ?c = Ok r /\ _ =>
      let v := eval vm_compute in c in
      match v with
      | Ok ?r0 => exists r0; split; [vm_compute; reflexivity|]
      end
  end.

(** [sub], of [k] bytes, ends the string of the goal. *)
Ltac contains_suffix k :=
  match goal with
  | |- contains ?s _ =>
      exists (String.substring 0 (String.length s - k) s), ""%string;
      vm_compute; reflexivity
  end.

(** ** CHA2DS2-VASc *)

(** C4. For every valid CHA2DS2-VASc input the call returns; the score is
    one point each for CHF, hypertension, diabetes, vascular disease and
    female sex, two for a stroke/TIA history, plus 2 for age >= 75, 1 for
    65 <= age < 75 and 0 below 65.  The risk is Low for 0 and 1, Moderate
    for 2, High from 3 on, and the High interpretation contains
    3.2 + (score-3)*0.8 written with one decimal and a percent sign.
    All-True with age 80 scores 9 and the text contains "8.0%". *)
Theorem calculate_chads2_vasc_score :
  (forall (chf htn dm stroke vasc female : bool) (age : Z),
    0 <= age <= 150 ->
    let n := indicator (chf = true) + indicator (htn = true) +
             indicator (dm = true) + indicator (vasc = true) +
             indicator (female = true) + 2 * indicator (stroke = true) +
             chads2_vasc_age_points age in
    exists r,
      calculate_chads2_vasc (VBool chf) (VBool htn) (VInt age) (VBool dm)
        (VBool stroke) (VBool vasc) (VBool female) = Ok r /\
      score r = VInt n /\
      (n = 0 \/ n = 1 -> risk_level r = LOW) /\
      (n = 2 -> risk_level r = MODERATE) /\
      (3 <= n -> risk_level r = HIGH /\
                 contains (interpretation r)
                   (tenths_string (32 + 8 * (n - 3)) +:+ "%"))) /\
  exists r,
    calculate_chads2_vasc (VBool true) (VBool true) (VInt 80) (VBool true)
      (VBool true) (VBool true) (VBool true) = Ok r /\
    score r = VInt 9 /\ risk_level r = HIGH /\
    contains (interpretation r) "8.0%".
Proof.
  split.
  - intros chf htn dm stroke vasc female age Ha n. subst n.
    unfold chads2_vasc_age_points, indicator.
    destruct chf, htn, dm, stroke, vasc, female.
    all: repeat decide_step; try (exfalso; lia); try congruence.
    all: unfold calculate_chads2_vasc; rewrite validate_int_ok by assumption;
      py_cmp; py_bind; repeat (cmp_step; py_bind).
    all: returns_value.
    all: repeat split; try (intros; lia).
    all: contains_suffix 4%nat.
  - returns_value. repeat split. contains_suffix 4%nat.
Qed.

Lemma calculate_chads2_vasc_score_witness :
  exists r,
    calculate_chads2_vasc (VBool true) (VBool false) (VInt 70) (VBool false)
      (VBool true) (VBool false) (VBool false) = Ok r /\
    score r = VInt 4 /\ risk_level r = HIGH /\
    contains (interpretation r) "4.0%".
Proof.
  destruct (proj1 calculate_chads2_vasc_score true false false true false false 70)
    as (r & Hr & Hs & _ & _ & Hhigh); [lia|].
  exists r. split; [exact Hr|]. split; [exact Hs|].
  apply Hhigh. vm_compute. discriminate.
Defined.

(** ** APACHE II *)

Lemma bind_ok {A B : Type} (m : result A) (a : A) (k : A -> result B) :
  m = Ok a -> m ≫= k = k a.
Proof. intros ->. reflexivity. Qed.

(** A test followed by the block it guards, then the rest of the body. *)
Lemma block_ok {A B : Type} (c : result bool) (blk : bool -> result A)
    (k : A -> result B) (a : A) :
  c ≫= blk = Ok a -> c ≫= (fun x => blk x ≫= k) = k a.
Proof. destruct c as [b|e]; simpl; [intros ->; reflexivity | discriminate]. Qed.

(** On numbers of the declared types [calculate_apache_ii] always returns:
    the score is the sum of the six contributions and the bucket follows
    the total.  The eight remaining arguments are never read. *)
Lemma apache_ii_typed (t m : Q) (hr gcs age : Z) (ch : bool)
    (rr ox ph na k cr hct wbc : value) :
  let total := apache_temperature_points t + apache_map_points m +
               apache_heart_rate_points hr + (15 - gcs) +
               apache_age_points age + (if ch then 5 else 0) in
  exists r,
    calculate_apache_ii (VFloat t) (VFloat m) (VInt hr) rr ox ph na k cr hct
      wbc (VInt gcs) (VInt age) (VBool ch) = Ok r /\
    score r = VInt total /\
    (total <= 4 ->
       risk_level r = LOW /\
       interpretation r =
         "Riesgo bajo de mortalidad (APACHE II " +:+ pretty total +:+
         "). Mortalidad estimada: <4%" /\
       recommendations r = "Paciente estable. Monitoreo rutinario.") /\
    (5 <= total <= 14 ->
       risk_level r = MODERATE /\
       interpretation r =
         "Riesgo moderado de mortalidad (APACHE II " +:+ pretty total +:+
         "). Mortalidad estimada: 8-15%" /\
       recommendations r =
         "Monitoreo cercano. Considerar cuidados intermedios.") /\
    (15 <= total <= 24 ->
       risk_level r = HIGH /\
       interpretation r =
         "Riesgo alto de mortalidad (APACHE II " +:+ pretty total +:+
         "). Mortalidad estimada: 15-25%" /\
       recommendations r = "UCI recomendada. Soporte intensivo.") /\
    (24 < total ->
       risk_level r = SEVERE /\
       interpretation r =
         "Riesgo muy alto de mortalidad (APACHE II " +:+ pretty total +:+
         "). Mortalidad estimada: >40%" /\
       recommendations r =
         "UCI. Soporte vital máximo. Considerar pronóstico.").
Proof.
  intros total. unfold calculate_apache_ii.
  rewrite (block_ok _ _ _ (apache_temperature_points t)).
  2:{ unfold apache_temperature_points. py_cmp. py_bind.
      repeat decide_step; repeat (cmp_step; py_bind); try reflexivity;
        exfalso; unfold inject_Z in *; lra. }
  rewrite (block_ok _ _ _ (apache_temperature_points t + apache_map_points m)).
  2:{ unfold apache_map_points. py_cmp. py_bind.
      repeat decide_step; repeat (cmp_step; py_bind); try reflexivity;
        try (f_equal; lia); exfalso; unfold inject_Z in *; lra. }
  rewrite (block_ok _ _ _ (apache_temperature_points t + apache_map_points m +
                           apache_heart_rate_points hr)).
  2:{ unfold apache_heart_rate_points. py_cmp. py_bind.
      repeat decide_step; repeat (cmp_step; py_bind); try reflexivity;
        try (f_equal; lia). }
  rewrite (bind_ok _ (VInt (15 - gcs))) by reflexivity.
  rewrite (bind_ok _ (VInt (apache_temperature_points t + apache_map_points m +
                            apache_heart_rate_points hr + (15 - gcs))))
    by reflexivity.
  rewrite (block_ok _ _ _
             (VInt (apache_temperature_points t + apache_map_points m +
                    apache_heart_rate_points hr + (15 - gcs) +
                    apache_age_points age))).
  2:{ unfold apache_age_points. py_cmp. py_bind.
      repeat decide_step; repeat (cmp_step; py_bind);
        first [reflexivity | cbn; do 2 f_equal; lia]. }
  rewrite (bind_ok _ (VInt total))
    by (subst total; destruct ch; cbn; first [reflexivity | do 2 f_equal; lia]).
  clearbody total.
  py_cmp. py_bind.
  repeat (cmp_step; py_bind).
  all: eexists; split; [reflexivity|];
    cbn [score risk_level interpretation recommendations str].
  all: repeat split; try (intros; lia); reflexivity.
Qed.

(** C3. [calculate_apache_ii] adds 4 temperature points when the
    temperature is >= 41 or <= 29.9, else 3 when >= 39 or <= 31.9, else 1
    when >= 38.5 or <= 33.9, else 0; it adds exactly 15 - glasgow_coma_scale
    Glasgow points; the total is Low up to 4, Moderate from 5 to 14, High
    from 15 to 24 and Severe above 24, each bucket with its fixed
    mortality estimate and recommendation. *)
Theorem calculate_apache_ii_ladder_and_buckets
    (t m : Q) (hr gcs age : Z) (ch : bool) (rr ox ph na k cr hct wbc : value) :
  exists (r : CalculatorResult) (temperature_points other total : Z),
    calculate_apache_ii (VFloat t) (VFloat m) (VInt hr) rr ox ph na k cr hct
      wbc (VInt gcs) (VInt age) (VBool ch) = Ok r /\
    score r = VInt total /\
    total = temperature_points + (15 - gcs) + other /\
    other = apache_map_points m + apache_heart_rate_points hr +
            apache_age_points age + (if ch then 5 else 0) /\
    ((41 <= t \/ t <= 29.9)%Q -> temperature_points = 4) /\
    (~ (41 <= t \/ t <= 29.9)%Q -> (39 <= t \/ t <= 31.9)%Q ->
       temperature_points = 3) /\
    (~ (41 <= t \/ t <= 29.9)%Q -> ~ (39 <= t \/ t <= 31.9)%Q ->
       (38.5 <= t \/ t <= 33.9)%Q -> temperature_points = 1) /\
    (~ (41 <= t \/ t <= 29.9)%Q -> ~ (39 <= t \/ t <= 31.9)%Q ->
       ~ (38.5 <= t \/ t <= 33.9)%Q -> temperature_points = 0) /\
    (total <= 4 ->
       risk_level r = LOW /\
       interpretation r =
         "Riesgo bajo de mortalidad (APACHE II " +:+ pretty total +:+
         "). Mortalidad estimada: <4%" /\
       recommendations r = "Paciente estable. Monitoreo rutinario.") /\
    (5 <= total <= 14 ->
       risk_level r = MODERATE /\
       interpretation r =
         "Riesgo moderado de mortalidad (APACHE II " +:+ pretty total +:+
         "). Mortalidad estimada: 8-15%" /\
       recommendations r =
         "Monitoreo cercano. Considerar cuidados intermedios.") /\
    (15 <= total <= 24 ->
       risk_level r = HIGH /\
       interpretation r =
         "Riesgo alto de mortalidad (APACHE II " +:+ pretty total +:+
         "). Mortalidad estimada: 15-25%" /\
       recommendations r = "UCI recomendada. Soporte intensivo.") /\
    (24 < total ->
       risk_level r = SEVERE /\
       interpretation r =
         "Riesgo muy alto de mortalidad (APACHE II " +:+ pretty total +:+
         "). Mortalidad estimada: >40%" /\
       recommendations r =
         "UCI. Soporte vital máximo. Considerar pronóstico.").
Proof.
  destruct (apache_ii_typed t m hr gcs age ch rr ox ph na k cr hct wbc)
    as (r & Hr & Hs & Hlow & Hmod & Hhigh & Hsev).
  exists r, (apache_temperature_points t),
    (apache_map_points m + apache_heart_rate_points hr +
     apache_age_points age + (if ch then 5 else 0)),
    (apache_temperature_points t + apache_map_points m +
     apache_heart_rate_points hr + (15 - gcs) +
     apache_age_points age + (if ch then 5 else 0)).
  split; [exact Hr|]. split; [exact Hs|]. split; [lia|]. split; [reflexivity|].
  unfold apache_temperature_points.
  do 4 (split; [intros; repeat decide_step; first [reflexivity | tauto]|]).
  split; [exact Hlow|]. split; [exact Hmod|]. split; [exact Hhigh | exact Hsev].
Qed.

Lemma calculate_apache_ii_ladder_and_buckets_witness :
  exists r,
    calculate_apache_ii (VFloat 39.5) (VFloat 85) (VInt 80) VNone VNone VNone
      VNone VNone VNone VNone VNone (VInt 14) (VInt 50) (VBool false) = Ok r /\
    score r = VInt 8 /\ risk_level r = MODERATE.
Proof.
  destruct (calculate_apache_ii_ladder_and_buckets 39.5%Q 85%Q 80 14 50 false
              VNone VNone VNone VNone VNone VNone VNone VNone)
    as (r & tp & other & total & Hr & Hs & Ht & Ho & _ & H3 & _ & _ & _ & Hmod & _).
  assert (Htp : tp = 3).
  { apply H3.
    - intros [H|H]; vm_compute in H; congruence.
    - left. vm_compute. discriminate. }
  assert (Htot : total = 8) by (subst; vm_compute; reflexivity).
  exists r. split; [exact Hr|]. split; [rewrite Hs, Htot; reflexivity|].
  apply Hmod. lia.
Defined.

(** C9. In [calculate_apache_ii] the mean arterial pressure contributes
    2 points for every value above 69 and up to 109 (85 for instance), and
    it contributes 0 points exactly for the values strictly between 109
    and 130. *)
Theorem calculate_apache_ii_map_points
    (t m : Q) (hr gcs age : Z) (ch : bool) (rr ox ph na k cr hct wbc : value) :
  exists (r : CalculatorResult) (map_points : Z),
    calculate_apache_ii (VFloat t) (VFloat m) (VInt hr) rr ox ph na k cr hct
      wbc (VInt gcs) (VInt age) (VBool ch) = Ok r /\
    score r = VInt (map_points +
                    (apache_temperature_points t + apache_heart_rate_points hr +
                     (15 - gcs) + apache_age_points age +
                     (if ch then 5 else 0))) /\
    ((69 < m <= 109)%Q -> map_points = 2) /\
    (map_points = 0 <-> (109 < m < 130)%Q) /\
    ((m == 85)%Q -> map_points = 2).
Proof.
  destruct (apache_ii_typed t m hr gcs age ch rr ox ph na k cr hct wbc)
    as (r & Hr & Hs & _).
  exists r, (apache_map_points m).
  split; [exact Hr|]. split; [rewrite Hs; f_equal; lia|].
  unfold apache_map_points.
  repeat decide_step.
  all: repeat split; intros;
    first [reflexivity | lra | (exfalso; lia) | (exfalso; lra)].
Qed.

Lemma calculate_apache_ii_map_points_witness :
  exists r,
    calculate_apache_ii (VFloat 37) (VFloat 85) (VInt 80) VNone VNone VNone
      VNone VNone VNone VNone VNone (VInt 15) (VInt 30) (VBool false) = Ok r /\
    score r = VInt 2.
Proof.
  destruct (calculate_apache_ii_map_points 37%Q 85%Q 80 15 30 false
              VNone VNone VNone VNone VNone VNone VNone VNone)
    as (r & mp & Hr & Hs & H2 & _ & _).
  assert (Hmp : mp = 2)
    by (apply H2; split; vm_compute; first [reflexivity | discriminate]).
  subst mp. exists r. split; [exact Hr|]. exact Hs.
Defined.

(** ** Graph queries *)

Lemma order_by_Permutation {A : Type} (column : A -> Z) (rows : list A) :
  Permutation (crud.order_by column rows) rows.
Proof. unfold crud.order_by. apply merge_sort_Permutation. Qed.

Lemma order_by_sorted {A : Type} (column : A -> Z) (rows : list A) :
  StronglySorted (fun a b => column a <= column b) (crud.order_by column rows).
Proof.
  unfold crud.order_by. apply StronglySorted_merge_sort.
  - intros x y z Hxy Hyz. lia.
  - intros x y. lia.
Qed.

Lemma order_by_In {A : Type} (column : A -> Z) (rows : list A) (x : A) :
  In x (crud.order_by column rows) <-> In x rows.
Proof.
  split; apply Permutation_in;
    [|symmetry]; apply order_by_Permutation.
Qed.

Lemma order_by_nil_inv {A : Type} (column : A -> Z) (rows : list A) :
  rows = [] -> crud.order_by column rows = [].
Proof. intros ->. reflexivity. Qed.

(** C8. The outgoing edges of a node are exactly the active edges whose
    [from_node_id] is the node's id, each as often as it is stored, in
    ascending [order_index]; a node without such edges gets the empty
    list. *)
Theorem get_outgoing_edges_from_node_spec (db : Session) (id : Z) :
  let out := crud.get_outgoing_edges_from_node db id in
  (forall e, In e out <->
             In e (algorithm_edges db) /\ from_node_id e = id /\
             edge_is_active e = true) /\
  Permutation out
    (List.filter (fun e => (from_node_id e =? id) && edge_is_active e)
       (algorithm_edges db)) /\
  edges_ascending out /\
  ((forall e, In e (algorithm_edges db) -> edge_is_active e = true ->
              from_node_id e <> id) -> out = []).
Proof.
  unfold crud.get_outgoing_edges_from_node. cbv zeta.
  split; [|split; [|split]].
  - intros e. rewrite order_by_In, filter_In, andb_true_iff, Z.eqb_eq. tauto.
  - apply order_by_Permutation.
  - apply order_by_sorted.
  - intros Hleaf. apply order_by_nil_inv.
    destruct (List.filter _ _) as [|e l] eqn:E; [reflexivity|].
    assert (He : In e (List.filter
                         (fun e => (from_node_id e =? id) && edge_is_active e)
                         (algorithm_edges db))) by (rewrite E; left; reflexivity).
    apply filter_In in He. destruct He as [Hin Hp].
    apply andb_true_iff in Hp. destruct Hp as [Hf Ha].
    apply Z.eqb_eq in Hf. exfalso. exact (Hleaf e Hin Ha Hf).
Qed.

Lemma get_outgoing_edges_from_node_spec_witness :
  crud.get_outgoing_edges_from_node
    (mkSession ∅ []
       [mkAlgorithmEdge 1 1 10 11 None 0 true;
        mkAlgorithmEdge 2 1 10 12 None 1 false]) 11 = [].
Proof.
  apply (get_outgoing_edges_from_node_spec
           (mkSession ∅ []
              [mkAlgorithmEdge 1 1 10 11 None 0 true;
               mkAlgorithmEdge 2 1 10 12 None 1 false]) 11).
  intros e [<-|[<-|[]]] Ha; simpl in *; [lia | discriminate].
Defined.

(** ** Counters *)

Lemma increment_usage_lookup (db : Session) (utcnow id : Z) (a : Algorithm) :
  algorithms db !! id = Some a ->
  forall j,
    usage_of (fst (crud.increment_algorithm_usage_count db utcnow id)) j =
    if decide (id = j) then Some (usage_count a + 1) else usage_of db j.
Proof.
  intros Ha j. unfold crud.increment_algorithm_usage_count, crud.get_algorithm_by_id.
  rewrite Ha. unfold usage_of. cbn [fst algorithms].
  rewrite lookup_insert. destruct (decide (id = j)); reflexivity.
Qed.

Lemma increment_view_usage (db : Session) (utcnow id : Z) (j : Z) :
  usage_of (fst (crud.increment_algorithm_view_count db utcnow id)) j =
  usage_of db j.
Proof.
  unfold crud.increment_algorithm_view_count, crud.get_algorithm_by_id.
  destruct (algorithms db !! id) as [a|] eqn:Ha; [|reflexivity].
  unfold usage_of. cbn [fst algorithms].
  rewrite lookup_insert. destruct (decide (id = j)) as [<-|]; [|reflexivity].
  rewrite Ha. reflexivity.
Qed.

Lemma increment_usage_missing (db : Session) (utcnow id : Z) :
  algorithms db !! id = None ->
  crud.increment_algorithm_usage_count db utcnow id = (db, None).
Proof.
  intros Ha. unfold crud.increment_algorithm_usage_count, crud.get_algorithm_by_id.
  rewrite Ha. reflexivity.
Qed.

(** *** The commit of a full fetch *)

(** The collections that a full fetch of a stored algorithm assigns leave
    exactly its inactive nodes and edges as orphans. *)
Lemma full_fetch_orphans (db : Session) (id : Z) (a : Algorithm) :
  algorithms db !! id = Some a ->
  let pending := fst (crud.get_algorithm_with_nodes_and_edges db id) in
  (forall n, In n (crud.orphan_nodes pending) <->
             In n (algorithm_nodes db) /\ node_algorithm_id n = id /\
             node_is_active n = false) /\
  (forall e, In e (crud.orphan_edges pending) <->
             In e (algorithm_edges db) /\ edge_algorithm_id e = id /\
             edge_is_active e = false).
Proof.
  intros Ha. cbv zeta.
  unfold crud.get_algorithm_with_nodes_and_edges, crud.get_algorithm_by_id.
  rewrite Ha. cbn [fst crud.orphan_nodes crud.orphan_edges]. unfold crud.orphans.
  split.
  - intros n. rewrite !filter_In, Z.eqb_eq, negb_true_iff, bool_decide_eq_false,
      list_elem_of_In.
    unfold crud.get_algorithm_nodes_by_algorithm.
    rewrite order_by_In, filter_In, andb_true_iff, Z.eqb_eq.
    destruct (node_is_active n); intuition congruence.
  - intros e. rewrite !filter_In, Z.eqb_eq, negb_true_iff, bool_decide_eq_false,
      list_elem_of_In.
    unfold crud.get_algorithm_edges_by_algorithm.
    rewrite order_by_In, filter_In, andb_true_iff, Z.eqb_eq.
    destruct (edge_is_active e); intuition congruence.
Qed.

Lemma elem_of_fmap_In {A : Type} (f : A -> Z) (l : list A) (z : Z) :
  z ∈ f <$> l <-> exists x, In x l /\ f x = z.
Proof.
  rewrite list_elem_of_fmap. split.
  - intros (x & -> & Hx). exists x. by rewrite <- list_elem_of_In.
  - intros (x & Hx & <-). exists x. by rewrite list_elem_of_In.
Qed.

(** The flush of a full fetch is refused exactly in the states of
    [commit_fails]. *)
Lemma full_fetch_flush_fails (db : Session) (id : Z) (a : Algorithm) :
  algorithms db !! id = Some a ->
  crud.flush db (fst (crud.get_algorithm_with_nodes_and_edges db id)) =
    inl crud.IntegrityError <->
  commit_fails db id.
Proof.
  intros Ha. destruct (full_fetch_orphans db id a Ha) as [Hnodes Hedges].
  unfold crud.flush.
  set (pending := fst (crud.get_algorithm_with_nodes_and_edges db id)) in *.
  destruct (existsb _ _) eqn:Hex.
  - split; [intros _|reflexivity].
    apply existsb_exists in Hex as (e & He & Hrefs).
    apply filter_In in He as [He Hkept].
    apply negb_true_iff, bool_decide_eq_false in Hkept.
    rewrite elem_of_fmap_In in Hkept.
    apply orb_true_iff in Hrefs.
    assert (Hn : exists n, In n (crud.orphan_nodes pending) /\
                           (from_node_id e = node_id n \/ to_node_id e = node_id n)).
    { destruct Hrefs as [H|H]; apply bool_decide_eq_true in H;
        apply elem_of_fmap_In in H as (n & Hn & Hid); exists n; split; auto. }
    destruct Hn as (n & Hn & Href). apply Hnodes in Hn as (Hin & Hal & Hact).
    exists n, e. repeat split; try assumption.
    intros e' He' Hal' Hact' Heq. apply Hkept. exists e'.
    split; [|exact Heq]. apply Hedges. by repeat split.
  - split; [discriminate|]. intros (n & e & Hn & Hal & Hact & He & Href & Hkept).
    exfalso. apply not_true_iff_false in Hex. apply Hex.
    apply existsb_exists. exists e. split.
    + apply filter_In. split; [exact He|].
      apply negb_true_iff, bool_decide_eq_false. rewrite elem_of_fmap_In.
      intros (e' & He' & Heq). apply Hedges in He' as (He' & Hal' & Hact').
      by apply (Hkept e').
    + apply orb_true_iff.
      assert (Horph : In n (crud.orphan_nodes pending)) by (by apply Hnodes).
      destruct Href as [Href|Href]; [left|right];
        apply bool_decide_eq_true, elem_of_fmap_In; by exists n.
Qed.

(** A flush that goes through leaves the algorithm table alone, only
    removes nodes and edges, and leaves no inactive node of the algorithm
    behind. *)
Lemma full_fetch_flush_ok (db flushed : Session) (id : Z) (a : Algorithm) :
  algorithms db !! id = Some a ->
  crud.flush db (fst (crud.get_algorithm_with_nodes_and_edges db id)) =
    inr flushed ->
  algorithms flushed = algorithms db /\
  (forall n, In n (algorithm_nodes flushed) ->
     In n (algorithm_nodes db) /\
     (node_algorithm_id n = id -> node_is_active n = true)) /\
  (forall e, In e (algorithm_edges flushed) -> In e (algorithm_edges db)).
Proof.
  intros Ha. destruct (full_fetch_orphans db id a Ha) as [Hnodes Hedges].
  unfold crud.flush.
  set (pending := fst (crud.get_algorithm_with_nodes_and_edges db id)) in *.
  destruct (existsb _ _); [discriminate|]. intros [= <-]. cbn.
  split; [reflexivity|]. split.
  - intros n Hn. apply filter_In in Hn as [Hn Hkept]. split; [exact Hn|].
    intros Hal. destruct (node_is_active n) eqn:Hact; [reflexivity|].
    apply negb_true_iff, bool_decide_eq_false in Hkept. exfalso. apply Hkept.
    apply elem_of_fmap_In. exists n. split; [|reflexivity]. by apply Hnodes.
  - intros e He. by apply filter_In in He as [He _].
Qed.

(** The three outcomes of the full-fetch endpoint. *)
Lemma full_fetch_cases (db : Session) (utcnow id : Z) :
  (algorithms db !! id = None /\
   main.get_algorithm_with_nodes_and_edges db utcnow id =
     (db, inl (main.HTTP (main.HTTP_404_NOT_FOUND "Algoritmo no encontrado")))) \/
  (exists a, algorithms db !! id = Some a /\ commit_fails db id /\
   main.get_algorithm_with_nodes_and_edges db utcnow id =
     (db, inl (main.SQLAlchemy crud.IntegrityError))) \/
  (exists a flushed,
     algorithms db !! id = Some a /\ ~ commit_fails db id /\
     crud.flush db (fst (crud.get_algorithm_with_nodes_and_edges db id)) =
       inr flushed /\
     fst (main.get_algorithm_with_nodes_and_edges db utcnow id) =
       fst (crud.increment_algorithm_usage_count flushed utcnow id)).
Proof.
  destruct (algorithms db !! id) as [a|] eqn:Ha.
  - right.
    pose proof (full_fetch_flush_fails db id a Ha) as Hfail.
    set (pending := fst (crud.get_algorithm_with_nodes_and_edges db id)) in *.
    assert (Hget : crud.get_algorithm_with_nodes_and_edges db id =
                   (pending,
                    Some (crud.mkAlgorithmFull a
                            (crud.get_algorithm_nodes_by_algorithm db id)
                            (crud.get_algorithm_edges_by_algorithm db id)))).
    { subst pending. unfold crud.get_algorithm_with_nodes_and_edges,
        crud.get_algorithm_by_id. by rewrite Ha. }
    unfold main.get_algorithm_with_nodes_and_edges. rewrite Hget.
    destruct (crud.flush db pending) as [[]|flushed] eqn:Hflush.
    + left. exists a. split; [reflexivity|]. split; [by apply Hfail | reflexivity].
    + right. exists a, flushed. split; [reflexivity|]. split.
      * intros Hc. apply Hfail in Hc. discriminate.
      * split; [reflexivity|].
        by destruct (crud.increment_algorithm_usage_count flushed utcnow id).
  - left. split; [reflexivity|].
    unfold main.get_algorithm_with_nodes_and_edges,
      crud.get_algorithm_with_nodes_and_edges, crud.get_algorithm_by_id.
    by rewrite Ha.
Qed.

(** A full fetch whose commit goes through counts one use, and its commit
    can be repeated. *)
Lemma full_fetch_counts (db : Session) (utcnow id : Z) (a : Algorithm) :
  algorithms db !! id = Some a -> ~ commit_fails db id ->
  let db' := run_op db (GetAlgorithmFull utcnow id) in
  (exists a', algorithms db' !! id = Some a' /\
              usage_count a' = usage_count a + 1 /\
              view_count a' = view_count a) /\
  (forall j, j <> id -> algorithms db' !! j = algorithms db !! j) /\
  ~ commit_fails db' id.
Proof.
  intros Ha Hok. cbv zeta. cbn [run_op].
  destruct (full_fetch_cases db utcnow id)
    as [[Hn _]|[(b & _ & Hc & _)|(b & flushed & Hb & _ & Hflush & ->)]];
    [congruence | contradiction |].
  destruct (full_fetch_flush_ok db flushed id a Ha Hflush) as (Halg & Hnodes & _).
  unfold crud.increment_algorithm_usage_count, crud.get_algorithm_by_id.
  rewrite Halg, Ha. cbn [fst algorithms algorithm_nodes algorithm_edges].
  split; [|split].
  - rewrite lookup_insert_eq. eexists; split; [reflexivity|]. by split.
  - intros j Hj. by rewrite lookup_insert_ne.
  - intros (n & e & Hn & Hal & Hact & _). cbn in Hn.
    destruct (Hnodes n Hn) as [_ Hactive]. rewrite (Hactive Hal) in Hact.
    discriminate.
Qed.

(** What one operation does to the usage counters. *)
Lemma run_op_usage (db : Session) (op : core_op) (j : Z) (u : Z) :
  usage_of db j = Some u ->
  exists u', usage_of (run_op db op) j = Some u' /\ u <= u' <= u + 1.
Proof.
  intros Hu.
  assert (Hsame : exists u', usage_of db j = Some u' /\ u <= u' <= u + 1)
    by (exists u; split; [exact Hu | lia]).
  assert (Hinc : forall (d : Session) utcnow id,
            algorithms d = algorithms db ->
            exists u', usage_of (fst (crud.increment_algorithm_usage_count
                                        d utcnow id)) j = Some u' /\
                       u <= u' <= u + 1).
  { intros d utcnow id Hd.
    assert (Hud : usage_of d j = Some u) by (unfold usage_of; by rewrite Hd).
    destruct (algorithms d !! id) as [a|] eqn:Ha.
    - rewrite (increment_usage_lookup d utcnow id a Ha).
      destruct (decide (id = j)) as [<-|].
      + unfold usage_of in Hud. rewrite Ha in Hud. injection Hud as <-.
        eexists; split; [reflexivity | lia].
      + exists u. split; [exact Hud | lia].
    - rewrite (increment_usage_missing d utcnow id Ha).
      exists u. split; [exact Hud | lia]. }
  destruct op; cbn [run_op]; try exact Hsame.
  - destruct (full_fetch_cases db utcnow algorithm_id)
      as [[_ ->]|[(a & _ & _ & ->)|(a & flushed & Ha & _ & Hflush & ->)]];
      [exact Hsame | exact Hsame |].
    apply Hinc. by destruct (full_fetch_flush_ok db flushed algorithm_id a Ha Hflush).
  - rewrite increment_view_usage. exact Hsame.
  - by apply Hinc.
Qed.

(** C6. A full fetch of a stored algorithm adds exactly 1 to its
    [usage_count], and two in a row add exactly 2, whenever its commit can
    be written; but the fetch also orphans the inactive nodes and edges of
    the algorithm, and when an edge that stays refers to such a node the
    commit is refused: the endpoint raises [IntegrityError] and counts
    nothing, as for the stored algorithm 1 below.  The counters of the
    other algorithms stay as they are, a plain fetch by id changes
    nothing, be it the query or the endpoint [GET /algorithms/{id}], which
    counts a view and no use, and no sequence of operations of the model
    ever lowers a [usage_count]. *)
Theorem get_algorithm_full_counts_usage :
  (forall db utcnow id a,
     algorithms db !! id = Some a -> ~ commit_fails db id ->
     usage_of (run_op db (GetAlgorithmFull utcnow id)) id =
       Some (usage_count a + 1)) /\
  (forall db t1 t2 id a,
     algorithms db !! id = Some a -> ~ commit_fails db id ->
     usage_of (run_ops db [GetAlgorithmFull t1 id; GetAlgorithmFull t2 id]) id =
       Some (usage_count a + 2)) /\
  (forall db utcnow id a,
     algorithms db !! id = Some a -> commit_fails db id ->
     main.get_algorithm_with_nodes_and_edges db utcnow id =
       (db, inl (main.SQLAlchemy crud.IntegrityError))) /\
  (let db :=
     mkSession
       {[ 1 := mkAlgorithm "a1" "Sepsis" "flowchart" None true false 3 7 0 ]}
       [mkAlgorithmNode 1 1 "start" "Ingreso" 0 true;
        mkAlgorithmNode 2 1 "action" "Antiguo" 1 false]
       [mkAlgorithmEdge 1 1 1 2 None 0 true] in
   main.get_algorithm_with_nodes_and_edges db 100 1 =
     (db, inl (main.SQLAlchemy crud.IntegrityError)) /\
   usage_of (run_ops db [GetAlgorithmFull 100 1; GetAlgorithmFull 101 1]) 1 =
     Some 7) /\
  (forall db utcnow id j,
     id <> j ->
     usage_of (run_op db (GetAlgorithmFull utcnow id)) j = usage_of db j) /\
  (forall db id, run_op db (GetAlgorithmById id) = db) /\
  (forall db utcnow id j,
     usage_of (fst (main.get_algorithm db utcnow id)) j = usage_of db j) /\
  (forall ops db j u,
     usage_of db j = Some u ->
     exists u', usage_of (run_ops db ops) j = Some u' /\ u <= u').
Proof.
  assert (Hone : forall db utcnow id a,
            algorithms db !! id = Some a -> ~ commit_fails db id ->
            usage_of (run_op db (GetAlgorithmFull utcnow id)) id =
              Some (usage_count a + 1)).
  { intros db utcnow id a Ha Hok.
    destruct (full_fetch_counts db utcnow id a Ha Hok) as ((a' & Ha' & Hu & _) & _).
    unfold usage_of. rewrite Ha'. cbn. by rewrite Hu. }
  split; [exact Hone|]. split; [|split; [|split; [|split; [|split; [|split]]]]].
  - intros db t1 t2 id a Ha Hok. unfold run_ops. cbn [fold_left].
    destruct (full_fetch_counts db t1 id a Ha Hok)
      as ((a1 & Ha1 & Hu1 & _) & _ & Hok1).
    rewrite (Hone _ t2 id a1 Ha1 Hok1). f_equal. lia.
  - intros db utcnow id a Ha Hc.
    destruct (full_fetch_cases db utcnow id)
      as [[Hn _]|[(b & _ & _ & ->)|(b & flushed & _ & Hok & _)]];
      [congruence | reflexivity | contradiction].
  - cbv zeta. split; vm_compute; reflexivity.
  - intros db utcnow id j Hne. cbn [run_op].
    destruct (full_fetch_cases db utcnow id)
      as [[_ ->]|[(a & _ & _ & ->)|(a & flushed & Ha & _ & Hflush & ->)]];
      [reflexivity | reflexivity |].
    destruct (full_fetch_flush_ok db flushed id a Ha Hflush) as (Halg & _).
    assert (Ha' : algorithms flushed !! id = Some a) by (by rewrite Halg).
    rewrite (increment_usage_lookup flushed utcnow id a Ha').
    destruct (decide (id = j)); [congruence|]. unfold usage_of. by rewrite Halg.
  - reflexivity.
  - intros db utcnow id j. unfold main.get_algorithm.
    destruct (crud.get_algorithm_by_id db id); [|reflexivity].
    rewrite <- (increment_view_usage db utcnow id j).
    by destruct (crud.increment_algorithm_view_count db utcnow id).
  - intros ops. induction ops as [|op ops IH]; intros db j u Hu.
    + exists u. split; [exact Hu | lia].
    + unfold run_ops. cbn [fold_left].
      destruct (run_op_usage db op j u Hu) as (u1 & Hu1 & Hle).
      destruct (IH (run_op db op) j u1 Hu1) as (u' & Hu' & Hle').
      exists u'. split; [exact Hu' | lia].
Qed.

(** C10. With an id that is not stored, [increment_algorithm_view_count]
    and [increment_algorithm_usage_count] return [None] and hand back the
    store as it was: no row and no counter is created or written. *)
Theorem increment_counts_unknown_id (db : Session) (utcnow algorithm_id : Z) :
  crud.get_algorithm_by_id db algorithm_id = None ->
  crud.increment_algorithm_view_count db utcnow algorithm_id = (db, None) /\
  crud.increment_algorithm_usage_count db utcnow algorithm_id = (db, None).
Proof.
  intros Hnone.
  unfold crud.increment_algorithm_view_count, crud.increment_algorithm_usage_count.
  rewrite Hnone. split; reflexivity.
Qed.

Lemma increment_counts_unknown_id_witness :
  let db := mkSession
              {[ 1 := mkAlgorithm "a1" "Sepsis" "flowchart" None true false 3 7 0 ]}
              [] [] in
  crud.increment_algorithm_view_count db 100 2 = (db, None) /\
  crud.increment_algorithm_usage_count db 100 2 = (db, None).
Proof.
  intros db. apply (increment_counts_unknown_id db 100 2). vm_compute. reflexivity.
Defined.

(** C6 at a stored algorithm with [usage_count] 7, with an inactive node
    that no edge refers to. *)
Lemma get_algorithm_full_counts_usage_witness :
  let db := mkSession
              {[ 1 := mkAlgorithm "a1" "Sepsis" "flowchart" None true false 3 7 0 ]}
              [mkAlgorithmNode 1 1 "start" "Ingreso" 0 true;
               mkAlgorithmNode 2 1 "action" "Antiguo" 1 false]
              [] in
  usage_of (run_op db (GetAlgorithmFull 100 1)) 1 = Some 8 /\
  usage_of (run_ops db [GetAlgorithmFull 100 1; GetAlgorithmFull 101 1]) 1 = Some 9 /\
  exists u', usage_of (run_ops db [IncrementAlgorithmViewCount 5 1;
                                   GetAlgorithmById 1;
                                   GetAlgorithmFull 6 1]) 1 = Some u' /\ 7 <= u'.
Proof.
  intros db.
  assert (Hok : ~ commit_fails db 1).
  { intros (n & e & _ & _ & _ & He & _). destruct He. }
  destruct get_algorithm_full_counts_usage as (H1 & H2 & _ & _ & _ & _ & _ & Hmono).
  split; [|split].
  - apply (H1 db 100 1 (mkAlgorithm "a1" "Sepsis" "flowchart" None true false 3 7 0));
      [vm_compute; reflexivity | exact Hok].
  - apply (H2 db 100 101 1
             (mkAlgorithm "a1" "Sepsis" "flowchart" None true false 3 7 0));
      [vm_compute; reflexivity | exact Hok].
  - apply (Hmono _ db 1 7). vm_compute. reflexivity.
Defined.

(** ** Start node *)

Lemma head_filter_split {A : Type} (p : A -> bool) (l : list A) (x : A) :
  head (List.filter p l) = Some x <->
  exists l1 l2, l = l1 ++ x :: l2 /\ p x = true /\
                forall y, In y l1 -> p y = false.
Proof.
  induction l as [|a l IH]; simpl.
  - split; [discriminate|]. intros (l1 & l2 & H & _). by destruct l1.
  - destruct (p a) eqn:Hp; simpl.
    + split.
      * intros [= ->]. exists [], l. split; [reflexivity|]. split; [exact Hp|].
        intros y [].
      * intros (l1 & l2 & Hl & Hx & Hbefore). destruct l1 as [|b l1].
        -- simpl in Hl. congruence.
        -- simpl in Hl. injection Hl as -> _.
           rewrite (Hbefore b) in Hp by (left; reflexivity). discriminate.
    + rewrite IH. split.
      * intros (l1 & l2 & -> & Hx & Hbefore). exists (a :: l1), l2.
        split; [reflexivity|]. split; [exact Hx|].
        intros y [<-|Hy]; [exact Hp | by apply Hbefore].
      * intros (l1 & l2 & Hl & Hx & Hbefore). destruct l1 as [|b l1].
        -- simpl in Hl. injection Hl as -> _. congruence.
        -- simpl in Hl. injection Hl as -> ->. exists l1, l2.
           split; [reflexivity|]. split; [exact Hx|].
           intros y Hy. apply Hbefore. by right.
Qed.

(** C5. With a [start_node_id] the stored node of that id is returned and
    without any active start node the result is [None]; but when
    [start_node_id] is unset the fallback takes the first active start node
    in storage order and never looks at [order_index]: with node 1
    ([order_index] 5) stored before node 2 ([order_index] 1) it returns
    node 1. *)
Theorem get_algorithm_start_node_resolution :
  (forall db algorithm_id a i,
     crud.get_algorithm_by_id db algorithm_id = Some a ->
     start_node_id a = Some i -> i <> 0 ->
     crud.get_algorithm_start_node db algorithm_id =
     crud.get_algorithm_node_by_id db i) /\
  (forall db algorithm_id a,
     crud.get_algorithm_by_id db algorithm_id = Some a ->
     start_node_id a = None ->
     (forall n, In n (algorithm_nodes db) -> ~ is_start_node_of algorithm_id n) ->
     crud.get_algorithm_start_node db algorithm_id = None) /\
  (forall db algorithm_id a n,
     crud.get_algorithm_by_id db algorithm_id = Some a ->
     start_node_id a = None ->
     (crud.get_algorithm_start_node db algorithm_id = Some n <->
      exists before after,
        algorithm_nodes db = before ++ n :: after /\
        is_start_node_of algorithm_id n /\
        forall m, In m before -> ~ is_start_node_of algorithm_id m)) /\
  let n1 := mkAlgorithmNode 1 1 "start" "Ingreso" 5 true in
  let n2 := mkAlgorithmNode 2 1 "start" "Triaje" 1 true in
  let db := mkSession
              {[ 1 := mkAlgorithm "a1" "Sepsis" "flowchart" None true false 0 0 0 ]}
              [n1; n2] [] in
  crud.get_algorithm_start_node db 1 = Some n1 /\
  is_start_node_of 1 n2 /\ In n2 (algorithm_nodes db) /\
  node_order_index n2 < node_order_index n1.
Proof.
  assert (Hp : forall algorithm_id n,
            (node_algorithm_id n =? algorithm_id) &&
            String.eqb (node_type n) "start" && node_is_active n = true <->
            is_start_node_of algorithm_id n).
  { intros algorithm_id n. unfold is_start_node_of.
    rewrite !andb_true_iff, Z.eqb_eq, String.eqb_eq. tauto. }
  assert (Hnp : forall algorithm_id n,
            ~ is_start_node_of algorithm_id n <->
            (node_algorithm_id n =? algorithm_id) &&
            String.eqb (node_type n) "start" && node_is_active n = false).
  { intros algorithm_id n. rewrite <- Hp. by destruct (_ && _). }
  split; [|split; [|split]].
  - intros db algorithm_id a i Ha Hi Hne. unfold crud.get_algorithm_start_node.
    rewrite Ha. unfold crud.start_node_id_unset. rewrite Hi.
    destruct (Z.eqb_spec i 0); [contradiction | reflexivity].
  - intros db algorithm_id a Ha Hi Hnone. unfold crud.get_algorithm_start_node.
    rewrite Ha. unfold crud.start_node_id_unset. rewrite Hi. unfold crud.first.
    destruct (List.filter _ _) as [|n l] eqn:E; [reflexivity|]. exfalso.
    assert (Hin : In n (List.filter
                          (fun n => (node_algorithm_id n =? algorithm_id) &&
                                    String.eqb (node_type n) "start" &&
                                    node_is_active n)
                          (algorithm_nodes db))) by (rewrite E; left; reflexivity).
    apply filter_In in Hin. destruct Hin as [Hin Hn].
    apply (Hnone n Hin). by apply Hp.
  - intros db algorithm_id a n Ha Hi. unfold crud.get_algorithm_start_node.
    rewrite Ha. unfold crud.start_node_id_unset. rewrite Hi. unfold crud.first.
    rewrite head_filter_split. split.
    + intros (l1 & l2 & Hl & Hn & Hbefore). exists l1, l2.
      split; [exact Hl|]. split; [by apply Hp|].
      intros m Hm. apply Hnp. by apply Hbefore.
    + intros (l1 & l2 & Hl & Hn & Hbefore). exists l1, l2.
      split; [exact Hl|]. split; [by apply Hp|].
      intros m Hm. apply Hnp. by apply Hbefore.
  - cbv zeta. split; [vm_compute; reflexivity|].
    split; [repeat split|]. split; [right; left; reflexivity | reflexivity].
Qed.

Lemma get_algorithm_start_node_resolution_witness :
  let n1 := mkAlgorithmNode 1 1 "decision" "Lactato" 0 true in
  let n2 := mkAlgorithmNode 2 1 "start" "Triaje" 1 true in
  let db := mkSession
              {[ 1 := mkAlgorithm "a1" "Sepsis" "flowchart" (Some 2) true false 0 0 0;
                 2 := mkAlgorithm "a2" "Dolor" "flowchart" None true false 0 0 0 ]}
              [n1; n2] [] in
  crud.get_algorithm_start_node db 1 = crud.get_algorithm_node_by_id db 2 /\
  crud.get_algorithm_start_node db 2 = None.
Proof.
  intros n1 n2 db.
  destruct get_algorithm_start_node_resolution as (Hset & Hnone & _ & _).
  split.
  - apply (Hset db 1 (mkAlgorithm "a1" "Sepsis" "flowchart" (Some 2) true false 0 0 0) 2).
    + vm_compute. reflexivity.
    + reflexivity.
    + lia.
  - apply (Hnone db 2 (mkAlgorithm "a2" "Dolor" "flowchart" None true false 0 0 0)).
    + vm_compute. reflexivity.
    + reflexivity.
    + intros n [<-|[<-|[]]] (Hal & _); vm_compute in Hal; discriminate.
Defined.

(** ** NIHSS *)

Lemma add_int (a b : Z) : add (VInt a) (VInt b) = Ok (VInt (a + b)).
Proof. reflexivity. Qed.

(** On integers [calculate_nihss] always returns: the score is the sum of
    the fifteen items and the bucket follows the sum. *)
Lemma nihss_typed (c o cm g vf fp al ar ll lr at_ se la dy ex : Z) :
  let total := c + o + cm + g + vf + fp + al + ar + ll + lr + at_ + se + la +
               dy + ex in
  exists r,
    calculate_nihss (VInt c) (VInt o) (VInt cm) (VInt g) (VInt vf) (VInt fp)
      (VInt al) (VInt ar) (VInt ll) (VInt lr) (VInt at_) (VInt se) (VInt la)
      (VInt dy) (VInt ex) = Ok r /\
    score r = VInt total /\
    (total = 0 ->
       risk_level r = LOW /\
       interpretation r = "Sin síntomas de stroke (NIHSS 0)") /\
    (total <> 0 -> total <= 4 ->
       risk_level r = LOW /\
       interpretation r = "Stroke menor (NIHSS " +:+ pretty total +:+ ")") /\
    (5 <= total <= 15 ->
       risk_level r = MODERATE /\
       interpretation r = "Stroke moderado (NIHSS " +:+ pretty total +:+ ")") /\
    (16 <= total <= 20 ->
       risk_level r = HIGH /\
       interpretation r =
         "Stroke moderado-severo (NIHSS " +:+ pretty total +:+ ")") /\
    (20 < total ->
       risk_level r = SEVERE /\
       interpretation r = "Stroke severo (NIHSS " +:+ pretty total +:+ ")").
Proof.
  intros total. unfold calculate_nihss.
  repeat rewrite (bind_ok _ _ _ (add_int _ _)).
  fold total. clearbody total.
  unfold eq, le, compare_with; cbn [as_num num_eqb num_leb].
  destruct (Z.eqb_spec total 0) as [->|Hne].
  { eexists; split; [reflexivity|].
    cbn [score risk_level interpretation].
    repeat split; try (intros; lia); try (intros; congruence). }
  py_bind.
  repeat (cmp_step; py_bind).
  all: eexists; split; [reflexivity|]; cbn [score risk_level interpretation str].
  all: repeat split; try (intros; lia); reflexivity.
Qed.

(** ** Inputs out of range or of the wrong type *)

(** C2. [calculate_curb65] rejects age -5 and respiratory rate 150 with the
    range error of the field, but [calculate_apache_ii] and
    [calculate_nihss] validate nothing: on numbers of the declared types
    they return a result however far out of range the numbers are
    (a temperature of 1000 degrees, a consciousness level of 99). *)
Theorem calculators_range_validation :
  calculate_curb65 (VBool false) (VFloat 5.0) (VInt 20) (VInt 120) (VInt 80)
    (VInt (-5)) = Raise (ValueError "Edad debe estar entre 0 y 150") /\
  calculate_curb65 (VBool false) (VFloat 5.0) (VInt 150) (VInt 120) (VInt 80)
    (VInt 50) =
    Raise (ValueError "Frecuencia respiratoria debe estar entre 0 y 100") /\
  (forall (t m : Q) (hr gcs age : Z) (ch : bool)
          (rr ox ph na k cr hct wbc : value),
     exists r,
       calculate_apache_ii (VFloat t) (VFloat m) (VInt hr) rr ox ph na k cr
         hct wbc (VInt gcs) (VInt age) (VBool ch) = Ok r) /\
  (exists r,
     calculate_apache_ii (VFloat 1000) (VFloat 85) (VInt 80) (VInt 18)
       (VFloat 95) (VFloat 7.4) (VFloat 140) (VFloat 4) (VFloat 1) (VFloat 40)
       (VFloat 8) (VInt 15) (VInt 30) (VBool false) = Ok r /\
     score r = VInt 6 /\ risk_level r = MODERATE) /\
  (forall c o cm g vf fp al ar ll lr at_ se la dy ex : Z,
     exists r,
       calculate_nihss (VInt c) (VInt o) (VInt cm) (VInt g) (VInt vf) (VInt fp)
         (VInt al) (VInt ar) (VInt ll) (VInt lr) (VInt at_) (VInt se) (VInt la)
         (VInt dy) (VInt ex) = Ok r /\
       score r = VInt (c + o + cm + g + vf + fp + al + ar + ll + lr + at_ +
                       se + la + dy + ex)) /\
  (exists r,
     calculate_nihss (VInt 99) (VInt 0) (VInt 0) (VInt 0) (VInt 0) (VInt 0)
       (VInt 0) (VInt 0) (VInt 0) (VInt 0) (VInt 0) (VInt 0) (VInt 0) (VInt 0)
       (VInt 0) = Ok r /\
     score r = VInt 99 /\ risk_level r = SEVERE).
Proof.
  split; [vm_compute; reflexivity|]. split; [vm_compute; reflexivity|].
  split; [|split; [|split]].
  - intros t m hr gcs age ch rr ox ph na k cr hct wbc.
    destruct (apache_ii_typed t m hr gcs age ch rr ox ph na k cr hct wbc)
      as (r & Hr & _).
    exists r. exact Hr.
  - returns_value. split; reflexivity.
  - intros.
    destruct (nihss_typed c o cm g vf fp al ar ll lr at_ se la dy ex)
      as (r & Hr & Hs & _).
    exists r. split; [exact Hr | exact Hs].
  - returns_value. split; reflexivity.
Qed.

(** C7. A value of the wrong type raises [TypeError] only where the code
    compares or adds it; a flag is only tested for truth.  Hence
    [calculate_wells_pe] returns on arguments of any type, the string "yes"
    counting as a set flag (3.0 points, Low), and [calculate_curb65] with
    [None] for the confusion flag returns score 0, while a string for a
    validated number does raise [TypeError]. *)
Theorem calculators_wrong_type :
  (forall a b c d e f g : value,
     exists r, calculate_wells_pe a b c d e f g = Ok r) /\
  (exists r,
     calculate_wells_pe (VStr "yes") (VBool false) (VBool false) (VBool false)
       (VBool false) (VBool false) (VBool false) = Ok r /\
     score r = VFloat 3 /\ risk_level r = LOW /\
     interpretation r = "Probabilidad baja de EP (3.0 puntos). Probabilidad < 12%") /\
  (exists r,
     calculate_curb65 VNone (VFloat 5.0) (VInt 20) (VInt 120) (VInt 80)
       (VInt 50) = Ok r /\
     score r = VInt 0 /\ risk_level r = LOW) /\
  calculate_curb65 (VBool false) (VStr "alta") (VInt 20) (VInt 120) (VInt 80)
    (VInt 50) = Raise TypeError.
Proof.
  split; [intros; eexists; reflexivity|].
  split; [returns_value; repeat split|].
  split; [returns_value; repeat split|].
  vm_compute. reflexivity.
Qed.

(** ** Range validation and the order of the checks *)

Lemma not_Qbetween (q : Q) (lo hi : Z) :
  ~ (inject_Z lo <= q <= inject_Z hi)%Q -> (q < inject_Z lo \/ inject_Z hi < q)%Q.
Proof.
  intros H. destruct (Qlt_le_dec q (inject_Z lo)) as [Hl|Hl]; [by left|].
  destruct (Qlt_le_dec (inject_Z hi) q) as [Hh|Hh]; [by right|].
  exfalso. apply H. by split.
Qed.

(** X1. On a number (a bool, an int or a float) and integer bounds
    [_validate_numeric_range] returns when the number lies between the
    bounds, both included, and otherwise raises the [ValueError] that
    names the field and the two bounds; there is no third outcome. *)
Theorem validate_numeric_range_spec (v : value) (n : num) (lo hi : Z) (name : string) :
  as_num v = Some n ->
  _validate_numeric_range v (VInt lo) (VInt hi) name =
    if decide (inject_Z lo <= num_Q n <= inject_Z hi)%Q then Ok tt
    else Raise (range_error name lo hi).
Proof.
  intros Hn.
  assert (Hint : forall z, n = NInt z ->
            _validate_numeric_range (VInt z) (VInt lo) (VInt hi) name =
            if decide (inject_Z lo <= num_Q n <= inject_Z hi)%Q then Ok tt
            else Raise (range_error name lo hi)).
  { intros z ->. cbn [num_Q]. destruct (decide _) as [[H1 H2]|H].
    - apply validate_int_ok. rewrite <- Zle_Qle in H1, H2. lia.
    - apply validate_int_out.
      destruct (Z_lt_le_dec z lo) as [?|Hl]; [by left|].
      destruct (Z_lt_le_dec hi z) as [?|Hh]; [by right|].
      exfalso. apply H. rewrite <- !Zle_Qle. lia. }
  destruct v as [|b|z|q|s]; simpl in Hn; try discriminate.
  - injection Hn as <-. rewrite <- (Hint (Z.b2z b) eq_refl). by destruct b.
  - injection Hn as <-. by apply Hint.
  - injection Hn as <-. cbn [num_Q]. destruct (decide _) as [H|H].
    + by apply validate_float_ok.
    + apply validate_float_out. by apply not_Qbetween.
Qed.

Lemma validate_numeric_range_spec_witness :
  _validate_numeric_range (VFloat 8.0) (VInt 0) (VInt 500) "Urea" = Ok tt /\
  _validate_numeric_range (VBool true) (VInt 40) (VInt 300) "Presión" =
    Raise (range_error "Presión" 40 300).
Proof.
  split.
  - rewrite (validate_numeric_range_spec (VFloat 8.0) (NFloat 8.0) 0 500 "Urea");
      reflexivity.
  - rewrite (validate_numeric_range_spec (VBool true) (NInt 1) 40 300 "Presión");
      reflexivity.
Defined.

(** On arguments in range the body of [calculate_curb65] returns, whatever
    the value of the confusion flag. *)
Lemma curb65_in_range_returns (confusion : value) (urea : Q) (rr sys dia age : Z) :
  (0 <= urea <= 500)%Q -> 0 <= rr <= 100 -> 40 <= sys <= 300 ->
  20 <= dia <= 200 -> 0 <= age <= 150 ->
  exists r,
    calculate_curb65 confusion (VFloat urea) (VInt rr) (VInt sys) (VInt dia)
      (VInt age) = Ok r.
Proof.
  intros Hu Hr Hs Hd Ha. unfold calculate_curb65.
  rewrite (validate_float_ok urea 0 500 _ Hu), !validate_int_ok by assumption.
  py_cmp. py_bind. destruct (truthy confusion).
  all: repeat (cmp_step; py_bind).
  all: eexists; reflexivity.
Qed.

(** X2. [calculate_curb65] checks urea, respiratory rate, systolic and
    diastolic pressure and age in this order and raises for the first one
    out of range, with that field's name and bounds, whatever the later
    arguments are; it returns a result exactly when all five are in
    range. *)
Theorem calculate_curb65_validation_order
    (confusion : value) (urea : Q) (rr sys dia age : Z) :
  let call := calculate_curb65 confusion (VFloat urea) (VInt rr) (VInt sys)
                (VInt dia) (VInt age) in
  let urea_ok := (0 <= urea <= 500)%Q in
  let rr_ok := 0 <= rr <= 100 in
  let sys_ok := 40 <= sys <= 300 in
  let dia_ok := 20 <= dia <= 200 in
  let age_ok := 0 <= age <= 150 in
  (~ urea_ok -> call = Raise (range_error "Urea" 0 500)) /\
  (urea_ok -> ~ rr_ok ->
     call = Raise (range_error "Frecuencia respiratoria" 0 100)) /\
  (urea_ok -> rr_ok -> ~ sys_ok ->
     call = Raise (range_error "Presión arterial sistólica" 40 300)) /\
  (urea_ok -> rr_ok -> sys_ok -> ~ dia_ok ->
     call = Raise (range_error "Presión arterial diastólica" 20 200)) /\
  (urea_ok -> rr_ok -> sys_ok -> dia_ok -> ~ age_ok ->
     call = Raise (range_error "Edad" 0 150)) /\
  ((exists r, call = Ok r) <->
   urea_ok /\ rr_ok /\ sys_ok /\ dia_ok /\ age_ok).
Proof.
  intros call urea_ok rr_ok sys_ok dia_ok age_ok.
  assert (H1 : ~ urea_ok -> call = Raise (range_error "Urea" 0 500)).
  { intros H. subst call. unfold calculate_curb65.
    rewrite validate_float_out by (by apply not_Qbetween). reflexivity. }
  assert (H2 : urea_ok -> ~ rr_ok ->
               call = Raise (range_error "Frecuencia respiratoria" 0 100)).
  { intros Hu H. subst call. unfold calculate_curb65.
    rewrite (validate_float_ok urea 0 500 _ Hu).
    rewrite (validate_int_out rr) by (subst rr_ok; lia). reflexivity. }
  assert (H3 : urea_ok -> rr_ok -> ~ sys_ok ->
               call = Raise (range_error "Presión arterial sistólica" 40 300)).
  { intros Hu Hr H. subst call. unfold calculate_curb65.
    rewrite (validate_float_ok urea 0 500 _ Hu).
    rewrite (validate_int_ok rr) by exact Hr.
    rewrite (validate_int_out sys) by (subst sys_ok; lia). reflexivity. }
  assert (H4 : urea_ok -> rr_ok -> sys_ok -> ~ dia_ok ->
               call = Raise (range_error "Presión arterial diastólica" 20 200)).
  { intros Hu Hr Hs H. subst call. unfold calculate_curb65.
    rewrite (validate_float_ok urea 0 500 _ Hu).
    rewrite (validate_int_ok rr) by exact Hr.
    rewrite (validate_int_ok sys) by exact Hs.
    rewrite (validate_int_out dia) by (subst dia_ok; lia). reflexivity. }
  assert (H5 : urea_ok -> rr_ok -> sys_ok -> dia_ok -> ~ age_ok ->
               call = Raise (range_error "Edad" 0 150)).
  { intros Hu Hr Hs Hd H. subst call. unfold calculate_curb65.
    rewrite (validate_float_ok urea 0 500 _ Hu).
    rewrite (validate_int_ok rr) by exact Hr.
    rewrite (validate_int_ok sys) by exact Hs.
    rewrite (validate_int_ok dia) by exact Hd.
    rewrite (validate_int_out age) by (subst age_ok; lia). reflexivity. }
  do 5 (split; [assumption|]).
  split.
  - intros [r Hr].
    destruct (decide urea_ok) as [Hu|Hu]; [|rewrite (H1 Hu) in Hr; discriminate].
    destruct (decide rr_ok) as [Hrr|Hrr]; [|rewrite (H2 Hu Hrr) in Hr; discriminate].
    destruct (decide sys_ok) as [Hs|Hs];
      [|rewrite (H3 Hu Hrr Hs) in Hr; discriminate].
    destruct (decide dia_ok) as [Hd|Hd];
      [|rewrite (H4 Hu Hrr Hs Hd) in Hr; discriminate].
    destruct (decide age_ok) as [Ha|Ha];
      [|rewrite (H5 Hu Hrr Hs Hd Ha) in Hr; discriminate].
    tauto.
  - intros (Hu & Hr & Hs & Hd & Ha). by apply curb65_in_range_returns.
Qed.

Lemma calculate_curb65_validation_order_witness :
  calculate_curb65 (VBool false) (VFloat 5.0) (VInt 150) (VInt 30) (VInt 80)
    (VInt (-5)) = Raise (range_error "Frecuencia respiratoria" 0 100).
Proof.
  apply (calculate_curb65_validation_order (VBool false) 5.0%Q 150 30 80 (-5)).
  - split; vm_compute; discriminate.
  - lia.
Defined.

(** ** CHA2DS2-VASc on flags of any type *)

(** X3. [calculate_chads2_vasc] validates the age only: with an age outside
    [0,150] it raises the range error of "Edad" whatever the flags are, and
    with an age inside it returns for flags of any type, each flag counting
    by its truth value. *)
Theorem calculate_chads2_vasc_flags_by_truth
    (chf htn dm stroke vasc female : value) (age : Z) :
  let call := calculate_chads2_vasc chf htn (VInt age) dm stroke vasc female in
  let pt (v : value) := Z.b2z (truthy v) in
  (~ 0 <= age <= 150 -> call = Raise (range_error "Edad" 0 150)) /\
  (0 <= age <= 150 ->
   exists r,
     call = Ok r /\
     score r = VInt (pt chf + pt htn + chads2_vasc_age_points age + pt dm +
                     2 * pt stroke + pt vasc + pt female)) /\
  ((exists r, call = Ok r) <-> 0 <= age <= 150).
Proof.
  intros call pt.
  assert (Hout : ~ 0 <= age <= 150 -> call = Raise (range_error "Edad" 0 150)).
  { intros H. subst call. unfold calculate_chads2_vasc.
    rewrite (validate_int_out age) by lia. reflexivity. }
  assert (Hin : 0 <= age <= 150 ->
     exists r,
       call = Ok r /\
       score r = VInt (pt chf + pt htn + chads2_vasc_age_points age + pt dm +
                       2 * pt stroke + pt vasc + pt female)).
  { intros Ha. subst call pt. unfold calculate_chads2_vasc.
    rewrite (validate_int_ok age) by exact Ha.
    unfold chads2_vasc_age_points.
    destruct (truthy chf), (truthy htn), (truthy dm), (truthy stroke),
      (truthy vasc), (truthy female).
    all: py_cmp; py_bind; repeat decide_step; repeat (cmp_step; py_bind).
    all: eexists; split; [reflexivity|]; vm_compute; reflexivity. }
  split; [exact Hout|]. split; [exact Hin|].
  split.
  - intros [r Hr]. destruct (decide (0 <= age <= 150)) as [|Hn]; [assumption|].
    rewrite (Hout Hn) in Hr. discriminate.
  - intros Ha. destruct (Hin Ha) as (r & Hr & _). by exists r.
Qed.

Lemma calculate_chads2_vasc_flags_by_truth_witness :
  calculate_chads2_vasc (VBool true) (VBool false) (VInt 151) (VBool false)
    (VBool false) (VBool false) (VBool true) = Raise (range_error "Edad" 0 150) /\
  exists r,
    calculate_chads2_vasc (VStr "si") VNone (VInt 70) (VInt 0) (VInt 1)
      (VBool false) (VBool true) = Ok r /\
    score r = VInt 5.
Proof.
  split.
  - apply (calculate_chads2_vasc_flags_by_truth (VBool true) (VBool false)
             (VBool false) (VBool false) (VBool false) (VBool true) 151). lia.
  - apply (calculate_chads2_vasc_flags_by_truth (VStr "si") VNone (VInt 0)
             (VInt 1) (VBool false) (VBool true) 70). lia.
Defined.

(** ** Wells score for pulmonary embolism *)

(** X4. [calculate_wells_pe] never raises: each argument counts by its
    truth value, 3 points for each of the first two, 1.5 for each of the
    next three and 1 for each of the last two, so the score lies between 0
    and 12.5; the risk is Low up to 4 points, Moderate above 4 and up to 6,
    High above 6, and the interpretation quotes the score. *)
Theorem calculate_wells_pe_weighted_sum (a b c d e f g : value) :
  let w (v : value) (p : Q) : Q := if truthy v then p else 0%Q in
  exists (r : CalculatorResult) (q : Q),
    calculate_wells_pe a b c d e f g = Ok r /\
    score r = VFloat q /\
    (q == w a 3 + w b 3 + w c 1.5 + w d 1.5 + w e 1.5 + w f 1 + w g 1)%Q /\
    (0 <= q <= 12.5)%Q /\
    (risk_level r = LOW <-> (q <= 4)%Q) /\
    (risk_level r = MODERATE <-> (4 < q <= 6)%Q) /\
    (risk_level r = HIGH <-> (6 < q)%Q) /\
    contains (interpretation r) ("(" +:+ float_repr q +:+ " puntos)").
Proof.
  intros w. subst w. unfold calculate_wells_pe.
  destruct (truthy a), (truthy b), (truthy c), (truthy d), (truthy e),
    (truthy f), (truthy g).
  all: eexists; eexists; split; [vm_compute; reflexivity|].
  all: split; [reflexivity|].
  all: split; [vm_compute; reflexivity|].
  all: split; [split; vm_compute; discriminate|].
  all: split; [split; intros H; vm_compute in H |- *; congruence|].
  all: split;
    [first [ split; [intros H; vm_compute in H; discriminate
                    | intros [H1 H2]; vm_compute in H1, H2 |- *; congruence]
           | split; [intros _; split; vm_compute; congruence
                    | intros _; reflexivity] ]|].
  all: split; [split; intros H; vm_compute in H |- *; congruence|].
  all: first
    [ exists "Probabilidad baja de EP "%string, ". Probabilidad < 12%"%string;
      vm_compute; reflexivity
    | exists "Probabilidad moderada de EP "%string, ". Probabilidad 12-37%"%string;
      vm_compute; reflexivity
    | exists "Probabilidad alta de EP "%string, ". Probabilidad > 37%"%string;
      vm_compute; reflexivity ].
Qed.

(** ** Glasgow Coma Scale *)

Lemma append_empty_r (s : string) : s +:+ EmptyString = s.
Proof.
  induction s as [|c s IH]; [reflexivity|].
  change (String c (s +:+ EmptyString) = String c s). by rewrite IH.
Qed.

Lemma contains_suffix_of (pre sub : string) : contains (pre +:+ sub) sub.
Proof. exists pre, EmptyString. by rewrite append_empty_r. Qed.

Lemma between_int (lo z hi : Z) :
  between (VInt lo) (VInt z) (VInt hi) = Ok ((lo <=? z) && (z <=? hi)).
Proof. unfold between. py_cmp. py_bind. by destruct (lo <=? z). Qed.

Lemma ge_int (a b : Z) : ge (VInt a) (VInt b) = Ok (b <=? a).
Proof. reflexivity. Qed.

(** The body of [calculate_glasgow_coma_scale] on integers. *)
Ltac glasgow_int :=
  unfold calculate_glasgow_coma_scale;
  repeat rewrite (bind_ok _ _ _ (between_int _ _ _));
  repeat rewrite (bind_ok _ _ _ (add_int _ _));
  repeat rewrite (bind_ok _ _ _ (ge_int _ _)).

(** X5. On integer items in their ranges (eye 1-4, verbal 1-5, motor 1-6)
    [calculate_glasgow_coma_scale] returns their sum, between 3 and 15,
    Low from 13, Moderate from 9 to 12 and Severe below 9 (never High),
    with the sum quoted in the interpretation. *)
Theorem calculate_glasgow_coma_scale_sum (e v m : Z) :
  1 <= e <= 4 -> 1 <= v <= 5 -> 1 <= m <= 6 ->
  exists r,
    calculate_glasgow_coma_scale (VInt e) (VInt v) (VInt m) = Ok r /\
    score r = VInt (e + v + m) /\ 3 <= e + v + m <= 15 /\
    (risk_level r = LOW <-> 13 <= e + v + m) /\
    (risk_level r = MODERATE <-> 9 <= e + v + m <= 12) /\
    (risk_level r = SEVERE <-> e + v + m <= 8) /\
    risk_level r <> HIGH /\
    contains (interpretation r) ("(GCS " +:+ pretty (e + v + m) +:+ ")").
Proof.
  intros He Hv Hm. glasgow_int.
  repeat (cmp_step; cbn [andb negb]).
  all: eexists; split; [reflexivity|];
    cbn [score risk_level interpretation str].
  all: split; [reflexivity|]. all: split; [lia|].
  all: do 3 (split; [split; intros; first [lia | congruence]|]).
  all: split; [congruence|].
  all: first
    [ exact (contains_suffix_of "Lesión cerebral leve " _)
    | exact (contains_suffix_of "Lesión cerebral moderada " _)
    | exact (contains_suffix_of "Lesión cerebral severa " _) ].
Qed.

Lemma calculate_glasgow_coma_scale_sum_witness :
  exists r,
    calculate_glasgow_coma_scale (VInt 3) (VInt 4) (VInt 5) = Ok r /\
    score r = VInt 12 /\ risk_level r = MODERATE.
Proof.
  destruct (calculate_glasgow_coma_scale_sum 3 4 5) as
    (r & Hr & Hs & _ & _ & Hmod & _); [lia | lia | lia |].
  exists r. split; [exact Hr|]. split; [exact Hs|]. apply Hmod. lia.
Defined.

(** X6. [calculate_glasgow_coma_scale] checks eye opening, verbal response
    and motor response in this order and raises the [ValueError] of the
    first item outside its range; it returns exactly when the three
    integers are in range. *)
Theorem calculate_glasgow_coma_scale_validation (e v m : Z) :
  let call := calculate_glasgow_coma_scale (VInt e) (VInt v) (VInt m) in
  (~ 1 <= e <= 4 ->
     call = Raise (ValueError "Apertura ocular debe estar entre 1-4")) /\
  (1 <= e <= 4 -> ~ 1 <= v <= 5 ->
     call = Raise (ValueError "Respuesta verbal debe estar entre 1-5")) /\
  (1 <= e <= 4 -> 1 <= v <= 5 -> ~ 1 <= m <= 6 ->
     call = Raise (ValueError "Respuesta motora debe estar entre 1-6")) /\
  ((exists r, call = Ok r) <-> 1 <= e <= 4 /\ 1 <= v <= 5 /\ 1 <= m <= 6).
Proof.
  intros call. subst call. glasgow_int.
  split; [|split; [|split; [|split]]].
  - intros H. repeat (cmp_step; cbn [andb negb]); reflexivity.
  - intros He H. repeat (cmp_step; cbn [andb negb]); reflexivity.
  - intros He Hv H. repeat (cmp_step; cbn [andb negb]); reflexivity.
  - intros [r Hr]. revert Hr.
    repeat (cmp_step; cbn [andb negb]); try discriminate. all: intros _; lia.
  - intros (He & Hv & Hm).
    repeat (cmp_step; cbn [andb negb]); eexists; reflexivity.
Qed.

Lemma calculate_glasgow_coma_scale_validation_witness :
  calculate_glasgow_coma_scale (VInt 4) (VInt 6) (VInt 7) =
  Raise (ValueError "Respuesta verbal debe estar entre 1-5").
Proof.
  apply (calculate_glasgow_coma_scale_validation 4 6 7); lia.
Defined.

(** ** NIHSS *)

(** X7. On integers [calculate_nihss] returns the sum of the fifteen
    items; the risk is Low up to 4 (zero and negative sums included),
    Moderate from 5 to 15, High from 16 to 20 and Severe above 20, the
    interpretation quotes the sum, and items within their documented
    ranges give a sum between 0 and 42. *)
Theorem calculate_nihss_sum_and_buckets
    (c o cm g vf fp al ar ll lr at_ se la dy ex : Z) :
  let total := c + o + cm + g + vf + fp + al + ar + ll + lr + at_ + se + la +
               dy + ex in
  exists r,
    calculate_nihss (VInt c) (VInt o) (VInt cm) (VInt g) (VInt vf) (VInt fp)
      (VInt al) (VInt ar) (VInt ll) (VInt lr) (VInt at_) (VInt se) (VInt la)
      (VInt dy) (VInt ex) = Ok r /\
    score r = VInt total /\
    (risk_level r = LOW <-> total <= 4) /\
    (risk_level r = MODERATE <-> 5 <= total <= 15) /\
    (risk_level r = HIGH <-> 16 <= total <= 20) /\
    (risk_level r = SEVERE <-> 20 < total) /\
    contains (interpretation r) ("(NIHSS " +:+ pretty total +:+ ")") /\
    (0 <= c <= 3 -> 0 <= o <= 2 -> 0 <= cm <= 2 -> 0 <= g <= 2 ->
     0 <= vf <= 3 -> 0 <= fp <= 3 -> 0 <= al <= 4 -> 0 <= ar <= 4 ->
     0 <= ll <= 4 -> 0 <= lr <= 4 -> 0 <= at_ <= 2 -> 0 <= se <= 2 ->
     0 <= la <= 3 -> 0 <= dy <= 2 -> 0 <= ex <= 2 ->
     0 <= total <= 42).
Proof.
  intros total.
  assert (Hbound :
    0 <= c <= 3 -> 0 <= o <= 2 -> 0 <= cm <= 2 -> 0 <= g <= 2 ->
    0 <= vf <= 3 -> 0 <= fp <= 3 -> 0 <= al <= 4 -> 0 <= ar <= 4 ->
    0 <= ll <= 4 -> 0 <= lr <= 4 -> 0 <= at_ <= 2 -> 0 <= se <= 2 ->
    0 <= la <= 3 -> 0 <= dy <= 2 -> 0 <= ex <= 2 ->
    0 <= total <= 42).
  { intros [? ?] [? ?] [? ?] [? ?] [? ?] [? ?] [? ?] [? ?] [? ?] [? ?] [? ?]
      [? ?] [? ?] [? ?] [? ?]. subst total. split.
    - repeat apply Z.add_nonneg_nonneg; assumption.
    - change 42 with (3 + 2 + 2 + 2 + 3 + 3 + 4 + 4 + 4 + 4 + 2 + 2 + 3 + 2 + 2).
      repeat apply Z.add_le_mono; assumption. }
  destruct (nihss_typed c o cm g vf fp al ar ll lr at_ se la dy ex)
    as (r & Hr & Hs & H0 & Hlow & Hmod & Hhigh & Hsev).
  fold total in Hs, H0, Hlow, Hmod, Hhigh, Hsev.
  revert Hbound Hs H0 Hlow Hmod Hhigh Hsev. generalize total. clear total.
  intros total Hbound Hs H0 Hlow Hmod Hhigh Hsev.
  exists r. split; [exact Hr|]. split; [exact Hs|].
  assert (Hrisk :
    (risk_level r = LOW <-> total <= 4) /\
    (risk_level r = MODERATE <-> 5 <= total <= 15) /\
    (risk_level r = HIGH <-> 16 <= total <= 20) /\
    (risk_level r = SEVERE <-> 20 < total)).
  { assert (Hcases : total = 0 \/ (total <> 0 /\ total <= 4) \/
                     5 <= total <= 15 \/ 16 <= total <= 20 \/ 20 < total) by lia.
    destruct Hcases as [Hc|[[Hc Hc']|[Hc|[Hc|Hc]]]];
      [destruct (H0 Hc) as [Hl _] | destruct (Hlow Hc Hc') as [Hl _]
      |destruct (Hmod Hc) as [Hl _] | destruct (Hhigh Hc) as [Hl _]
      |destruct (Hsev Hc) as [Hl _]];
      rewrite Hl; repeat split; intros; first [lia | congruence]. }
  destruct Hrisk as (R1 & R2 & R3 & R4).
  do 4 (split; [assumption|]). split; [|exact Hbound].
  destruct (Z.eq_dec total 0) as [Hc|Hc].
  - destruct (H0 Hc) as [_ ->]. subst total.
    exists "Sin síntomas de stroke "%string, EmptyString. vm_compute. reflexivity.
  - assert (Hcases : total <= 4 \/ 5 <= total <= 15 \/ 16 <= total <= 20 \/
                     20 < total) by lia.
    destruct Hcases as [Hc'|[Hc'|[Hc'|Hc']]].
    + destruct (Hlow Hc Hc') as [_ ->].
      exact (contains_suffix_of "Stroke menor " _).
    + destruct (Hmod Hc') as [_ ->].
      exact (contains_suffix_of "Stroke moderado " _).
    + destruct (Hhigh Hc') as [_ ->].
      exact (contains_suffix_of "Stroke moderado-severo " _).
    + destruct (Hsev Hc') as [_ ->].
      exact (contains_suffix_of "Stroke severo " _).
Qed.

Lemma calculate_nihss_sum_and_buckets_witness :
  0 <= 3 + 2 + 2 + 2 + 3 + 3 + 4 + 4 + 4 + 4 + 2 + 2 + 3 + 2 + 2 <= 42.
Proof.
  destruct (calculate_nihss_sum_and_buckets 3 2 2 2 3 3 4 4 4 4 2 2 3 2 2)
    as (r & _ & _ & _ & _ & _ & _ & _ & Hb).
  apply Hb; lia.
Defined.

(** *** Items that are not numbers, and integers too large for a float *)


















(** ** APACHE II: the remaining ladders and the range of the score *)

(** X9. [calculate_apache_ii] adds 4 heart-rate points when the rate is
    >= 180 or <= 39, else 2 when >= 140 or <= 54, else 1 when >= 110 or
    <= 69, else 0; it adds 6 age points from 75 years, 5 from 65, 3 from
    55, 2 from 45 and none below; a true chronic-health flag adds 5. *)
Theorem calculate_apache_ii_heart_rate_and_age
    (t m : Q) (hr gcs age : Z) (ch : bool) (rr ox ph na k cr hct wbc : value) :
  exists (r : CalculatorResult) (heart_rate_points age_points chronic_points : Z),
    calculate_apache_ii (VFloat t) (VFloat m) (VInt hr) rr ox ph na k cr hct
      wbc (VInt gcs) (VInt age) (VBool ch) = Ok r /\
    score r = VInt (apache_temperature_points t + apache_map_points m +
                    heart_rate_points + (15 - gcs) + age_points +
                    chronic_points) /\
    (180 <= hr \/ hr <= 39 -> heart_rate_points = 4) /\
    (140 <= hr < 180 \/ 39 < hr <= 54 -> heart_rate_points = 2) /\
    (110 <= hr < 140 \/ 54 < hr <= 69 -> heart_rate_points = 1) /\
    (69 < hr < 110 -> heart_rate_points = 0) /\
    (75 <= age -> age_points = 6) /\
    (65 <= age < 75 -> age_points = 5) /\
    (55 <= age < 65 -> age_points = 3) /\
    (45 <= age < 55 -> age_points = 2) /\
    (age < 45 -> age_points = 0) /\
    (ch = true -> chronic_points = 5) /\
    (ch = false -> chronic_points = 0).
Proof.
  destruct (apache_ii_typed t m hr gcs age ch rr ox ph na k cr hct wbc)
    as (r & Hr & Hs & _).
  exists r, (apache_heart_rate_points hr), (apache_age_points age),
    (if ch then 5 else 0).
  split; [exact Hr|]. split; [exact Hs|].
  unfold apache_heart_rate_points, apache_age_points.
  repeat decide_step.
  all: repeat split; intros; first [reflexivity | lia | (destruct ch; congruence)].
Qed.

Lemma calculate_apache_ii_heart_rate_and_age_witness :
  exists r,
    calculate_apache_ii (VFloat 37) (VFloat 120) (VInt 150) VNone VNone VNone
      VNone VNone VNone VNone VNone (VInt 15) (VInt 70) (VBool true) = Ok r /\
    score r = VInt 12.
Proof.
  destruct (calculate_apache_ii_heart_rate_and_age 37%Q 120%Q 150 15 70 true
              VNone VNone VNone VNone VNone VNone VNone VNone)
    as (r & hp & ap & cp & Hr & Hs & _ & H2 & _ & _ & _ & H5 & _ & _ & _ & Hc & _).
  exists r. split; [exact Hr|].
  rewrite Hs, (H2 ltac:(lia)), (H5 ltac:(lia)), (Hc eq_refl). reflexivity.
Defined.

(** X10. With a Glasgow score between 3 and 15 the APACHE II total lies
    between 0 and 35; the Glasgow score itself is not checked, and each
    point it goes up lowers the total by exactly one, also beyond 15. *)
Theorem calculate_apache_ii_score_range
    (t m : Q) (hr gcs age : Z) (ch : bool) (rr ox ph na k cr hct wbc : value) :
  exists (r r' : CalculatorResult) (total : Z),
    calculate_apache_ii (VFloat t) (VFloat m) (VInt hr) rr ox ph na k cr hct
      wbc (VInt gcs) (VInt age) (VBool ch) = Ok r /\
    score r = VInt total /\
    (3 <= gcs <= 15 -> 0 <= total <= 35) /\
    calculate_apache_ii (VFloat t) (VFloat m) (VInt hr) rr ox ph na k cr hct
      wbc (VInt (gcs + 1)) (VInt age) (VBool ch) = Ok r' /\
    score r' = VInt (total - 1).
Proof.
  destruct (apache_ii_typed t m hr gcs age ch rr ox ph na k cr hct wbc)
    as (r & Hr & Hs & _).
  destruct (apache_ii_typed t m hr (gcs + 1) age ch rr ox ph na k cr hct wbc)
    as (r' & Hr' & Hs' & _).
  exists r, r'. eexists.
  split; [exact Hr|]. split; [exact Hs|]. split; [|split; [exact Hr'|]].
  - intros Hg.
    unfold apache_temperature_points, apache_map_points,
      apache_heart_rate_points, apache_age_points.
    repeat decide_step; destruct ch; lia.
  - rewrite Hs'. f_equal. lia.
Qed.

Lemma calculate_apache_ii_score_range_witness :
  exists r total,
    calculate_apache_ii (VFloat 42) (VFloat 40) (VInt 200) VNone VNone VNone
      VNone VNone VNone VNone VNone (VInt 3) (VInt 80) (VBool true) = Ok r /\
    score r = VInt total /\ 0 <= total <= 35.
Proof.
  destruct (calculate_apache_ii_score_range 42%Q 40%Q 200 3 80 true
              VNone VNone VNone VNone VNone VNone VNone VNone)
    as (r & r' & total & Hr & Hs & Hb & _).
  exists r, total. split; [exact Hr|]. split; [exact Hs|]. apply Hb. lia.
Defined.

(** ** The list queries of the graph *)

(** X11. [get_algorithm_nodes_by_algorithm] returns exactly the active
    nodes of the algorithm, each as often as it is stored, in ascending
    [order_index]; inactive nodes and nodes of other algorithms never
    appear. *)
Theorem get_algorithm_nodes_by_algorithm_spec (db : Session) (algorithm_id : Z) :
  let ns := crud.get_algorithm_nodes_by_algorithm db algorithm_id in
  (forall n, In n ns <->
             In n (algorithm_nodes db) /\ node_algorithm_id n = algorithm_id /\
             node_is_active n = true) /\
  Permutation ns
    (List.filter (fun n => (node_algorithm_id n =? algorithm_id) && node_is_active n)
       (algorithm_nodes db)) /\
  nodes_ascending ns.
Proof.
  unfold crud.get_algorithm_nodes_by_algorithm. cbv zeta.
  split; [|split].
  - intros n. rewrite order_by_In, filter_In, andb_true_iff, Z.eqb_eq. tauto.
  - apply order_by_Permutation.
  - apply order_by_sorted.
Qed.

(** X12. [get_algorithm_edges_by_algorithm] returns exactly the active
    edges of the algorithm, each as often as it is stored, in ascending
    [order_index]. *)
Theorem get_algorithm_edges_by_algorithm_spec (db : Session) (algorithm_id : Z) :
  let es := crud.get_algorithm_edges_by_algorithm db algorithm_id in
  (forall e, In e es <->
             In e (algorithm_edges db) /\ edge_algorithm_id e = algorithm_id /\
             edge_is_active e = true) /\
  Permutation es
    (List.filter (fun e => (edge_algorithm_id e =? algorithm_id) && edge_is_active e)
       (algorithm_edges db)) /\
  edges_ascending es.
Proof.
  unfold crud.get_algorithm_edges_by_algorithm. cbv zeta.
  split; [|split].
  - intros e. rewrite order_by_In, filter_In, andb_true_iff, Z.eqb_eq. tauto.
  - apply order_by_Permutation.
  - apply order_by_sorted.
Qed.

(** X13. [get_incoming_edges_to_node] returns exactly the active edges that
    end in the node, in ascending [order_index]; and an edge is among the
    incoming edges of its target exactly when it is among the outgoing
    edges of its source and among the edges of its algorithm. *)
Theorem get_incoming_edges_to_node_spec (db : Session) :
  (forall id e,
     In e (crud.get_incoming_edges_to_node db id) <->
     In e (algorithm_edges db) /\ to_node_id e = id /\ edge_is_active e = true) /\
  (forall id, edges_ascending (crud.get_incoming_edges_to_node db id)) /\
  (forall e,
     (In e (crud.get_incoming_edges_to_node db (to_node_id e)) <->
      In e (crud.get_outgoing_edges_from_node db (from_node_id e))) /\
     (In e (crud.get_incoming_edges_to_node db (to_node_id e)) <->
      In e (crud.get_algorithm_edges_by_algorithm db (edge_algorithm_id e)))).
Proof.
  assert (Hin : forall id e,
     In e (crud.get_incoming_edges_to_node db id) <->
     In e (algorithm_edges db) /\ to_node_id e = id /\ edge_is_active e = true).
  { intros id e. unfold crud.get_incoming_edges_to_node.
    rewrite order_by_In, filter_In, andb_true_iff, Z.eqb_eq. tauto. }
  split; [exact Hin|]. split.
  - intros id. apply order_by_sorted.
  - intros e. rewrite !Hin.
    unfold crud.get_outgoing_edges_from_node, crud.get_algorithm_edges_by_algorithm.
    rewrite !order_by_In, !filter_In, !andb_true_iff, !Z.eqb_eq. tauto.
Qed.

(** ** Lookups by id *)

Lemma In_head_filter {A : Type} (p : A -> bool) (l : list A) (x : A) :
  head (List.filter p l) = Some x -> In x l /\ p x = true.
Proof.
  intros H. apply filter_In. destruct (List.filter p l); [discriminate|].
  injection H as ->. by left.
Qed.

Lemma head_filter_None {A : Type} (p : A -> bool) (l : list A) :
  head (List.filter p l) = None <-> forall x, In x l -> p x = false.
Proof.
  split.
  - intros H x Hx. destruct (p x) eqn:Hp; [|reflexivity].
    assert (Hf : In x (List.filter p l)) by (apply filter_In; by split).
    destruct (List.filter p l); [destruct Hf | discriminate].
  - intros H. destruct (List.filter p l) as [|x l'] eqn:E; [reflexivity|].
    assert (Hf : In x (List.filter p l)) by (rewrite E; by left).
    apply filter_In in Hf as [Hx Hp]. rewrite (H x Hx) in Hp. discriminate.
Qed.

(** X14. [get_algorithm_node_by_id] returns a stored node with the id
    asked for, and [None] exactly when no stored node has it; when the ids
    of the node table are pairwise distinct, looking up the id of a stored
    node gives back that node. *)
Theorem get_algorithm_node_by_id_spec (db : Session) :
  (forall id n,
     crud.get_algorithm_node_by_id db id = Some n ->
     In n (algorithm_nodes db) /\ node_id n = id) /\
  (forall id,
     crud.get_algorithm_node_by_id db id = None <->
     forall n, In n (algorithm_nodes db) -> node_id n <> id) /\
  (NoDup (map node_id (algorithm_nodes db)) ->
   forall n, In n (algorithm_nodes db) ->
             crud.get_algorithm_node_by_id db (node_id n) = Some n).
Proof.
  unfold crud.get_algorithm_node_by_id, crud.first.
  split; [|split].
  - intros id n H. apply In_head_filter in H as [Hn Hid].
    split; [exact Hn | by apply Z.eqb_eq].
  - intros id. rewrite head_filter_None. split.
    + intros H n Hn. specialize (H n Hn). by apply Z.eqb_neq.
    + intros H n Hn. apply Z.eqb_neq. by apply H.
  - intros Hnd n Hn.
    induction (algorithm_nodes db) as [|m l IH]; [destruct Hn|].
    cbn [map] in Hnd. apply NoDup_cons in Hnd as [Hm Hnd].
    cbn [List.filter]. destruct Hn as [->|Hn].
    + rewrite Z.eqb_refl. reflexivity.
    + destruct (Z.eqb_spec (node_id m) (node_id n)) as [Heq|Hne].
      * exfalso. apply Hm. rewrite Heq. apply list_elem_of_In, in_map, Hn.
      * by apply IH.
Qed.

Lemma get_algorithm_node_by_id_spec_witness :
  let n1 := mkAlgorithmNode 1 1 "start" "Ingreso" 0 true in
  let n2 := mkAlgorithmNode 2 1 "decision" "Lactato" 1 true in
  crud.get_algorithm_node_by_id (mkSession ∅ [n1; n2] []) (node_id n2) = Some n2.
Proof.
  intros n1 n2.
  destruct (get_algorithm_node_by_id_spec (mkSession ∅ [n1; n2] []))
    as (_ & _ & H).
  apply H.
  - apply NoDup_ListNoDup. cbn. repeat constructor; cbn; intros H';
      repeat destruct H' as [H'|H']; discriminate || done.
  - right. left. reflexivity.
Defined.

(** X15. Whatever [get_algorithm_start_node] returns is a stored node, and
    it is either the node that the stored algorithm designates through
    [start_node_id] or an active node of type "start" of that algorithm. *)
Theorem get_algorithm_start_node_sound (db : Session) (algorithm_id : Z)
    (n : AlgorithmNode) :
  crud.get_algorithm_start_node db algorithm_id = Some n ->
  In n (algorithm_nodes db) /\
  (is_start_node_of algorithm_id n \/
   exists a, crud.get_algorithm_by_id db algorithm_id = Some a /\
             start_node_id a = Some (node_id n)).
Proof.
  assert (Hfb : crud.first
                  (List.filter
                     (fun n => (node_algorithm_id n =? algorithm_id) &&
                               String.eqb (node_type n) "start" &&
                               node_is_active n)
                     (algorithm_nodes db)) = Some n ->
                In n (algorithm_nodes db) /\ is_start_node_of algorithm_id n).
  { intros H. apply In_head_filter in H as [Hn Hp]. split; [exact Hn|].
    apply andb_true_iff in Hp as [Hp Hact].
    apply andb_true_iff in Hp as [Hal Hty].
    apply Z.eqb_eq in Hal. apply String.eqb_eq in Hty. by repeat split. }
  unfold crud.get_algorithm_start_node.
  destruct (crud.get_algorithm_by_id db algorithm_id) as [a|] eqn:Ha.
  - destruct (crud.start_node_id_unset a) eqn:Hu.
    + intros H. destruct (Hfb H). by split; [|left].
    + destruct (start_node_id a) as [i|] eqn:Hi.
      * intros H. apply In_head_filter in H as [Hn Hid].
        apply Z.eqb_eq in Hid. split; [exact Hn|]. right. exists a.
        split; [reflexivity|]. by rewrite Hid.
      * intros H. destruct (Hfb H). by split; [|left].
  - intros H. destruct (Hfb H). by split; [|left].
Qed.

Lemma get_algorithm_start_node_sound_witness :
  let n1 := mkAlgorithmNode 1 7 "start" "Ingreso" 0 true in
  In n1 [n1] /\
  (is_start_node_of 7 n1 \/
   exists a, crud.get_algorithm_by_id (mkSession ∅ [n1] []) 7 = Some a /\
             start_node_id a = Some (node_id n1)).
Proof.
  intros n1.
  apply (get_algorithm_start_node_sound (mkSession ∅ [n1] []) 7 n1).
  vm_compute. reflexivity.
Defined.

(** ** What the counters write *)

(** X16. On a stored algorithm [increment_algorithm_view_count] returns the
    row with [view_count] one higher and [updated_at] set to the clock,
    every other column as it was; the store then holds that row under the
    id, and the other algorithms, the nodes and the edges are untouched. *)
Theorem increment_algorithm_view_count_frame
    (db : Session) (utcnow algorithm_id : Z) (a : Algorithm) :
  crud.get_algorithm_by_id db algorithm_id = Some a ->
  exists db' a',
    crud.increment_algorithm_view_count db utcnow algorithm_id = (db', Some a') /\
    view_count a' = view_count a + 1 /\ updated_at a' = utcnow /\
    usage_count a' = usage_count a /\ uuid a' = uuid a /\ title a' = title a /\
    algorithm_type a' = algorithm_type a /\
    start_node_id a' = start_node_id a /\
    is_published a' = is_published a /\ is_featured a' = is_featured a /\
    crud.get_algorithm_by_id db' algorithm_id = Some a' /\
    (forall j, j <> algorithm_id ->
               crud.get_algorithm_by_id db' j = crud.get_algorithm_by_id db j) /\
    algorithm_nodes db' = algorithm_nodes db /\
    algorithm_edges db' = algorithm_edges db.
Proof.
  intros Ha. unfold crud.increment_algorithm_view_count. rewrite Ha.
  eexists; eexists; split; [reflexivity|].
  cbn. repeat split; try reflexivity.
  - unfold crud.get_algorithm_by_id. cbn. apply lookup_insert_eq.
  - intros j Hj. unfold crud.get_algorithm_by_id. cbn.
    by apply lookup_insert_ne.
Qed.

Lemma increment_algorithm_view_count_frame_witness :
  let a := mkAlgorithm "a1" "Sepsis" "flowchart" None true false 3 7 0 in
  exists db' a',
    crud.increment_algorithm_view_count (mkSession {[ 1 := a ]} [] []) 100 1 =
      (db', Some a') /\
    view_count a' = 4 /\ usage_count a' = 7.
Proof.
  intros a.
  destruct (increment_algorithm_view_count_frame
              (mkSession {[ 1 := a ]} [] []) 100 1 a)
    as (db' & a' & H & Hv & _ & Hu & _); [vm_compute; reflexivity|].
  exists db', a'. split; [exact H|]. split; [exact Hv | exact Hu].
Defined.

(** X17. On a stored algorithm [increment_algorithm_usage_count] returns
    the row with [usage_count] one higher and [updated_at] set to the
    clock, every other column as it was; the store then holds that row
    under the id, and the other algorithms, the nodes and the edges are
    untouched. *)
Theorem increment_algorithm_usage_count_frame
    (db : Session) (utcnow algorithm_id : Z) (a : Algorithm) :
  crud.get_algorithm_by_id db algorithm_id = Some a ->
  exists db' a',
    crud.increment_algorithm_usage_count db utcnow algorithm_id = (db', Some a') /\
    usage_count a' = usage_count a + 1 /\ updated_at a' = utcnow /\
    view_count a' = view_count a /\ uuid a' = uuid a /\ title a' = title a /\
    algorithm_type a' = algorithm_type a /\
    start_node_id a' = start_node_id a /\
    is_published a' = is_published a /\ is_featured a' = is_featured a /\
    crud.get_algorithm_by_id db' algorithm_id = Some a' /\
    (forall j, j <> algorithm_id ->
               crud.get_algorithm_by_id db' j = crud.get_algorithm_by_id db j) /\
    algorithm_nodes db' = algorithm_nodes db /\
    algorithm_edges db' = algorithm_edges db.
Proof.
  intros Ha. unfold crud.increment_algorithm_usage_count. rewrite Ha.
  eexists; eexists; split; [reflexivity|].
  cbn. repeat split; try reflexivity.
  - unfold crud.get_algorithm_by_id. cbn. apply lookup_insert_eq.
  - intros j Hj. unfold crud.get_algorithm_by_id. cbn.
    by apply lookup_insert_ne.
Qed.

Lemma increment_algorithm_usage_count_frame_witness :
  let a := mkAlgorithm "a1" "Sepsis" "flowchart" None true false 3 7 0 in
  exists db' a',
    crud.increment_algorithm_usage_count (mkSession {[ 1 := a ]} [] []) 100 1 =
      (db', Some a') /\
    usage_count a' = 8 /\ view_count a' = 3.
Proof.
  intros a.
  destruct (increment_algorithm_usage_count_frame
              (mkSession {[ 1 := a ]} [] []) 100 1 a)
    as (db' & a' & H & Hv & _ & Hu & _); [vm_compute; reflexivity|].
  exists db', a'. split; [exact H|]. split; [exact Hv | exact Hu].
Defined.

(** ** Sequences of operations *)

Lemma counted_from_refl (a : Algorithm) : counted_from a a.
Proof. unfold counted_from. repeat split; lia. Qed.

Lemma counted_from_trans (a b c : Algorithm) :
  counted_from a b -> counted_from b c -> counted_from a c.
Proof.
  unfold counted_from. intros (?&?&?&?&?&?&?&?) (?&?&?&?&?&?&?&?).
  repeat split; try congruence; lia.
Qed.

(** One operation keeps the set of stored ids and only counts on the rows. *)
Lemma run_op_keeps (db : Session) (op : core_op) :
  (forall id, algorithms (run_op db op) !! id = None <->
              algorithms db !! id = None) /\
  (forall id a, algorithms db !! id = Some a ->
     exists a', algorithms (run_op db op) !! id = Some a' /\ counted_from a a').
Proof.
  assert (Hsame : (forall id, algorithms db !! id = None <->
                              algorithms db !! id = None) /\
                  (forall id a, algorithms db !! id = Some a ->
                     exists a', algorithms db !! id = Some a' /\
                                counted_from a a')).
  { split; [tauto|]. intros id a Ha. exists a.
    split; [exact Ha | apply counted_from_refl]. }
  assert (Hview : forall utcnow i,
    let db' := fst (crud.increment_algorithm_view_count db utcnow i) in
    (forall id, algorithms db' !! id = None <-> algorithms db !! id = None) /\
    (forall id a, algorithms db !! id = Some a ->
       exists a', algorithms db' !! id = Some a' /\ counted_from a a')).
  { intros utcnow i. cbv zeta. unfold crud.increment_algorithm_view_count,
      crud.get_algorithm_by_id.
    destruct (algorithms db !! i) as [b|] eqn:Hb; [|exact Hsame].
    cbn. split.
    - intros id. destruct (decide (i = id)) as [->|Hne].
      + rewrite lookup_insert_eq, Hb. split; discriminate.
      + by rewrite lookup_insert_ne.
    - intros id a Ha. destruct (decide (i = id)) as [->|Hne].
      + rewrite lookup_insert_eq. eexists; split; [reflexivity|].
        rewrite Hb in Ha. injection Ha as ->.
        unfold counted_from. cbn. repeat split; lia.
      + rewrite lookup_insert_ne by done. exists a.
        split; [exact Ha | apply counted_from_refl]. }
  assert (Huse : forall (d : Session) utcnow i,
    algorithms d = algorithms db ->
    let db' := fst (crud.increment_algorithm_usage_count d utcnow i) in
    (forall id, algorithms db' !! id = None <-> algorithms db !! id = None) /\
    (forall id a, algorithms db !! id = Some a ->
       exists a', algorithms db' !! id = Some a' /\ counted_from a a')).
  { intros d utcnow i Hd. cbv zeta. unfold crud.increment_algorithm_usage_count,
      crud.get_algorithm_by_id. rewrite Hd.
    destruct (algorithms db !! i) as [b|] eqn:Hb; [cbn | cbn; by rewrite Hd].
    split.
    - intros id. destruct (decide (i = id)) as [->|Hne].
      + rewrite lookup_insert_eq, Hb. split; discriminate.
      + by rewrite lookup_insert_ne.
    - intros id a Ha. destruct (decide (i = id)) as [->|Hne].
      + rewrite lookup_insert_eq. eexists; split; [reflexivity|].
        rewrite Hb in Ha. injection Ha as ->.
        unfold counted_from. cbn. repeat split; lia.
      + rewrite lookup_insert_ne by done. exists a.
        split; [exact Ha | apply counted_from_refl]. }
  destruct op; cbn [run_op]; try exact Hsame.
  - destruct (full_fetch_cases db utcnow algorithm_id)
      as [[_ ->]|[(a & _ & _ & ->)|(a & flushed & Ha & _ & Hflush & ->)]];
      [exact Hsame | exact Hsame |].
    apply Huse.
    by destruct (full_fetch_flush_ok db flushed algorithm_id a Ha Hflush).
  - apply Hview.
  - by apply Huse.
Qed.

(** X18. No sequence of graph queries, full fetches and counter increments
    adds or removes a stored algorithm; on every stored algorithm it leaves
    all columns but the two counters and [updated_at] as they were and
    lowers neither counter. *)
Theorem run_ops_only_counts (ops : list core_op) (db : Session) :
  let db' := run_ops db ops in
  (forall id, algorithms db' !! id = None <-> algorithms db !! id = None) /\
  (forall id a, algorithms db !! id = Some a ->
     exists a', algorithms db' !! id = Some a' /\ counted_from a a').
Proof.
  cbv zeta. revert db. induction ops as [|op ops IH]; intros db.
  - cbn. split; [tauto|]. intros id a Ha. exists a.
    split; [exact Ha | apply counted_from_refl].
  - unfold run_ops. cbn [fold_left]. fold (run_ops (run_op db op) ops).
    destruct (run_op_keeps db op) as (Hnone & Hsome).
    destruct (IH (run_op db op)) as (Hnone' & Hsome').
    split.
    + intros id. rewrite Hnone'. apply Hnone.
    + intros id a Ha. destruct (Hsome id a Ha) as (a1 & Ha1 & Hc1).
      destruct (Hsome' id a1 Ha1) as (a2 & Ha2 & Hc2).
      exists a2. split; [exact Ha2|]. by apply counted_from_trans with a1.
Qed.

Lemma run_ops_only_counts_witness :
  let a := mkAlgorithm "a1" "Sepsis" "flowchart" None true false 3 7 0 in
  let db := mkSession {[ 1 := a ]} [] [] in
  exists a',
    algorithms (run_ops db [GetAlgorithmFull 5 1; IncrementAlgorithmViewCount 6 1])
      !! 1 = Some a' /\ counted_from a a'.
Proof.
  intros a db.
  destruct (run_ops_only_counts
              [GetAlgorithmFull 5 1; IncrementAlgorithmViewCount 6 1] db)
    as (_ & H).
  apply (H 1 a). vm_compute. reflexivity.
Defined.

(** X19. Full fetches of a stored algorithm whose commit can be written
    add one use each: after [n] of them, whatever the clock showed,
    [usage_count] is [n] higher and [view_count] is as before.  When the
    commit cannot be written every one of them raises and the store stays
    as it was. *)
Theorem get_algorithm_full_n_times (times : list Z) (db : Session)
    (algorithm_id : Z) (a : Algorithm) :
  algorithms db !! algorithm_id = Some a ->
  let db' := run_ops db (map (fun t => GetAlgorithmFull t algorithm_id) times) in
  (~ commit_fails db algorithm_id ->
   usage_of db' algorithm_id = Some (usage_count a + Z.of_nat (length times)) /\
   views_of db' algorithm_id = Some (view_count a)) /\
  (commit_fails db algorithm_id -> db' = db).
Proof.
  cbv zeta. intros Ha. split.
  - revert db a Ha. induction times as [|t times IH]; intros db a Ha Hok.
    + unfold usage_of, views_of. cbn. rewrite Ha. cbn. split; f_equal; lia.
    + cbn [map length]. unfold run_ops. cbn [fold_left].
      fold (run_ops (run_op db (GetAlgorithmFull t algorithm_id))
              (map (fun t => GetAlgorithmFull t algorithm_id) times)).
      destruct (full_fetch_counts db t algorithm_id a Ha Hok)
        as ((a1 & Ha1 & Hu1 & Hv1) & _ & Hok1).
      destruct (IH _ a1 Ha1 Hok1) as [Hu Hv].
      rewrite Hu, Hv, Hu1, Hv1. split; f_equal; lia.
  - intros Hc. induction times as [|t times IH]; [reflexivity|].
    cbn [map]. unfold run_ops. cbn [fold_left run_op].
    destruct (full_fetch_cases db t algorithm_id)
      as [[Hn _]|[(b & _ & _ & ->)|(b & flushed & _ & Hok & _)]];
      [congruence | exact IH | contradiction].
Qed.

Lemma get_algorithm_full_n_times_witness :
  let a := mkAlgorithm "a1" "Sepsis" "flowchart" None true false 3 7 0 in
  let db := mkSession {[ 1 := a ]}
              [mkAlgorithmNode 2 1 "action" "Antiguo" 1 false] [] in
  let db' := mkSession {[ 1 := a ]}
               [mkAlgorithmNode 2 1 "action" "Antiguo" 1 false]
               [mkAlgorithmEdge 1 1 2 2 None 0 true] in
  usage_of (run_ops db (map (fun t => GetAlgorithmFull t 1) [10; 20; 30])) 1 =
    Some (7 + 3) /\
  run_ops db' (map (fun t => GetAlgorithmFull t 1) [10; 20; 30]) = db'.
Proof.
  intros a db db'. split.
  - apply (get_algorithm_full_n_times [10; 20; 30] db 1 a).
    + vm_compute. reflexivity.
    + intros (n & e & _ & _ & _ & He & _). destruct He.
  - apply (get_algorithm_full_n_times [10; 20; 30] db' 1 a).
    + vm_compute. reflexivity.
    + exists (mkAlgorithmNode 2 1 "action" "Antiguo" 1 false),
        (mkAlgorithmEdge 1 1 2 2 None 0 true).
      split; [by left|]. split; [reflexivity|]. split; [reflexivity|].
      split; [by left|]. split; [by left|].
      intros e' [<-|[]] _ Hact. discriminate.
Defined.

(** ** The endpoints *)



(** X21. The get-algorithm endpoint answers 404 for an id that is not
    stored and leaves the store as it was; for a stored algorithm it
    counts one view and no use, changes no other algorithm's counters, and
    its body is the stored row with the view already counted. *)
Theorem get_algorithm_counts_a_view (db : Session) (utcnow algorithm_id : Z) :
  (crud.get_algorithm_by_id db algorithm_id = None ->
   main.get_algorithm db utcnow algorithm_id =
     (db, inl (main.HTTP_404_NOT_FOUND "Algoritmo no encontrado"))) /\
  (forall a,
     crud.get_algorithm_by_id db algorithm_id = Some a ->
     exists db' a',
       main.get_algorithm db utcnow algorithm_id = (db', inr (Some a')) /\
       crud.get_algorithm_by_id db' algorithm_id = Some a' /\
       view_count a' = view_count a + 1 /\
       usage_count a' = usage_count a /\
       (forall j, usage_of db' j = usage_of db j) /\
       (forall j, j <> algorithm_id -> views_of db' j = views_of db j)).
Proof.
  split.
  - intros Ha. unfold main.get_algorithm. rewrite Ha. reflexivity.
  - intros a Ha. unfold main.get_algorithm. rewrite Ha.
    pose proof (increment_view_usage db utcnow algorithm_id) as Hu.
    revert Hu. unfold crud.increment_algorithm_view_count. rewrite Ha.
    cbn [fst]. intros Hu.
    unfold crud.get_algorithm_by_id at 1. cbn [algorithms].
    rewrite lookup_insert_eq.
    eexists; eexists; split; [reflexivity|].
    split; [unfold crud.get_algorithm_by_id; cbn; apply lookup_insert_eq|].
    split; [reflexivity|]. split; [reflexivity|]. split; [exact Hu|].
    intros j Hj. unfold views_of. cbn. by rewrite lookup_insert_ne.
Qed.

Lemma get_algorithm_counts_a_view_witness :
  let a := mkAlgorithm "a1" "Sepsis" "flowchart" None true false 3 7 0 in
  exists db' a',
    main.get_algorithm (mkSession {[ 1 := a ]} [] []) 100 1 =
      (db', inr (Some a')) /\
    view_count a' = 4 /\ usage_count a' = 7.
Proof.
  intros a.
  destruct (proj2 (get_algorithm_counts_a_view (mkSession {[ 1 := a ]} [] []) 100 1) a)
    as (db' & a' & H & _ & Hv & Hu & _); [vm_compute; reflexivity|].
  exists db', a'. split; [exact H|]. split; [exact Hv | exact Hu].
Defined.

(** X22. The outgoing-edges endpoint answers 404 when no stored node has
    the id or when the node found belongs to another algorithm; otherwise
    it returns the active edges leaving the node, in ascending
    [order_index]. *)
Theorem get_outgoing_edges_endpoint (db : Session) (algorithm_id node_id : Z) :
  let call := main.get_outgoing_edges_from_node db algorithm_id node_id in
  let not_found :=
    main.HTTP_404_NOT_FOUND "Nodo no encontrado o no pertenece al algoritmo" in
  ((forall n, In n (algorithm_nodes db) -> models.node_id n <> node_id) ->
   call = inl not_found) /\
  (forall n, crud.get_algorithm_node_by_id db node_id = Some n ->
     node_algorithm_id n <> algorithm_id -> call = inl not_found) /\
  (forall es, call = inr es ->
     (exists n, In n (algorithm_nodes db) /\ models.node_id n = node_id /\
                node_algorithm_id n = algorithm_id) /\
     es = crud.get_outgoing_edges_from_node db node_id /\
     edges_ascending es /\
     forall e, In e es -> from_node_id e = node_id /\ edge_is_active e = true).
Proof.
  cbv zeta. unfold main.get_outgoing_edges_from_node.
  split; [|split].
  - intros Hnone.
    assert (H : crud.get_algorithm_node_by_id db node_id = None).
    { unfold crud.get_algorithm_node_by_id, crud.first.
      apply head_filter_None. intros n Hn. apply Z.eqb_neq. by apply Hnone. }
    rewrite H. reflexivity.
  - intros n -> Hne. destruct (Z.eqb_spec (node_algorithm_id n) algorithm_id);
      [contradiction | reflexivity].
  - intros es.
    destruct (crud.get_algorithm_node_by_id db node_id) as [n|] eqn:Hn;
      [|discriminate].
    destruct (Z.eqb_spec (node_algorithm_id n) algorithm_id) as [Heq|];
      [|discriminate].
    cbn [negb]. intros [= <-].
    unfold crud.get_algorithm_node_by_id, crud.first in Hn.
    apply In_head_filter in Hn as [Hin Hid]. apply Z.eqb_eq in Hid.
    split; [by exists n|]. split; [reflexivity|].
    split; [apply order_by_sorted|].
    intros e. unfold crud.get_outgoing_edges_from_node.
    rewrite order_by_In, filter_In, andb_true_iff, Z.eqb_eq. tauto.
Qed.

Lemma get_outgoing_edges_endpoint_witness :
  main.get_outgoing_edges_from_node
    (mkSession ∅ [mkAlgorithmNode 1 7 "start" "Ingreso" 0 true]
       [mkAlgorithmEdge 1 7 1 2 None 0 true]) 8 1 =
  inl (main.HTTP_404_NOT_FOUND "Nodo no encontrado o no pertenece al algoritmo").
Proof.
  apply (proj1 (proj2 (get_outgoing_edges_endpoint
           (mkSession ∅ [mkAlgorithmNode 1 7 "start" "Ingreso" 0 true]
              [mkAlgorithmEdge 1 7 1 2 None 0 true]) 8 1))
           (mkAlgorithmNode 1 7 "start" "Ingreso" 0 true)).
  - vm_compute. reflexivity.
  - cbn. lia.
Defined.

(** ** Queries over the algorithm table *)

Lemma In_algorithm_rows (db : Session) (a : Algorithm) :
  In a (crud.algorithm_rows db) <-> exists id, algorithms db !! id = Some a.
Proof.
  unfold crud.algorithm_rows. rewrite <- list_elem_of_In, list_elem_of_fmap.
  split.
  - intros ([id b] & -> & H). exists id. by apply elem_of_map_to_list.
  - intros (id & H). exists (id, a). split; [reflexivity|].
    by apply elem_of_map_to_list.
Qed.

Lemma order_by_desc_Permutation {A : Type} (column : A -> Z) (rows : list A) :
  Permutation (crud.order_by_desc column rows) rows.
Proof. unfold crud.order_by_desc. apply merge_sort_Permutation. Qed.

Lemma order_by_desc_sorted {A : Type} (column : A -> Z) (rows : list A) :
  StronglySorted (fun a b => column b <= column a) (crud.order_by_desc column rows).
Proof.
  unfold crud.order_by_desc. apply StronglySorted_merge_sort.
  - intros x y z Hxy Hyz. lia.
  - intros x y. lia.
Qed.

Lemma StronglySorted_take_drop {A : Type} (R : A -> A -> Prop) (l : list A)
    (skip limit : nat) :
  StronglySorted R l -> StronglySorted R (take limit (drop skip l)).
Proof.
  intros H. rewrite <- (take_drop skip l) in H.
  apply StronglySorted_app_1_r in H.
  rewrite <- (take_drop limit (drop skip l)) in H.
  by apply StronglySorted_app_1_l in H.
Qed.

(** X23. [get_featured_algorithms] returns at most [limit] algorithms, all
    of them stored, published and featured, the most used first; without
    an offset and with a limit that the table does not exceed it returns
    every published featured algorithm. *)
Theorem get_featured_algorithms_spec (db : Session) (skip limit : nat) :
  let l := crud.get_featured_algorithms db skip limit in
  (length l <= limit)%nat /\
  (forall a, In a l ->
     (exists id, algorithms db !! id = Some a) /\
     is_published a = true /\ is_featured a = true) /\
  usage_descending l /\
  (skip = 0%nat -> (size (algorithms db) <= limit)%nat ->
   forall id a, algorithms db !! id = Some a ->
     is_published a = true -> is_featured a = true -> In a l).
Proof.
  cbv zeta. unfold crud.get_featured_algorithms.
  set (featured := List.filter (fun a => is_published a && is_featured a)
                     (crud.algorithm_rows db)).
  split; [|split; [|split]].
  - rewrite length_take. lia.
  - intros a Ha. apply list_elem_of_In in Ha.
    apply subseteq_take, subseteq_drop in Ha. apply list_elem_of_In in Ha.
    apply (Permutation_in _ (order_by_desc_Permutation _ _)) in Ha.
    subst featured. apply filter_In in Ha as [Hrow Hp].
    apply andb_true_iff in Hp. split; [by apply In_algorithm_rows | exact Hp].
  - apply StronglySorted_take_drop, order_by_desc_sorted.
  - intros -> Hsize id a Ha Hpub Hfeat. rewrite drop_0.
    rewrite take_ge.
    + apply (Permutation_in _ (Permutation_sym (order_by_desc_Permutation _ _))).
      subst featured. apply filter_In. split.
      * apply In_algorithm_rows. by exists id.
      * by rewrite Hpub, Hfeat.
    + rewrite (Permutation_length (order_by_desc_Permutation _ _)).
      subst featured.
      assert (Hle : forall (p : Algorithm -> bool) rows,
                      (length (List.filter p rows) <= length rows)%nat).
      { intros p rows. induction rows as [|x rows IH]; cbn; [lia|].
        destruct (p x); cbn; lia. }
      etrans; [apply Hle|].
      unfold crud.algorithm_rows. rewrite length_fmap, length_map_to_list.
      exact Hsize.
Qed.

Lemma get_featured_algorithms_spec_witness :
  let a1 := mkAlgorithm "a1" "Sepsis" "flowchart" None true true 3 7 0 in
  let a2 := mkAlgorithm "a2" "Dolor" "flowchart" None true false 1 9 0 in
  In a1 (crud.get_featured_algorithms
           (mkSession {[ 1 := a1; 2 := a2 ]} [] []) 0 10).
Proof.
  intros a1 a2.
  destruct (get_featured_algorithms_spec
              (mkSession {[ 1 := a1; 2 := a2 ]} [] []) 0 10) as (_ & _ & _ & H).
  apply (H eq_refl) with (id := 1).
  - vm_compute. lia.
  - vm_compute. reflexivity.
  - reflexivity.
  - reflexivity.
Defined.

(** X24. [get_algorithm_by_uuid] returns a stored algorithm with the uuid
    asked for, and [None] exactly when no stored algorithm has it. *)
Theorem get_algorithm_by_uuid_spec (db : Session) (u : string) :
  (forall a, crud.get_algorithm_by_uuid db u = Some a ->
     uuid a = u /\ exists id, algorithms db !! id = Some a) /\
  (crud.get_algorithm_by_uuid db u = None <->
   forall id a, algorithms db !! id = Some a -> uuid a <> u).
Proof.
  unfold crud.get_algorithm_by_uuid, crud.first. split.
  - intros a H. apply In_head_filter in H as [Hrow Hu].
    apply String.eqb_eq in Hu. split; [exact Hu | by apply In_algorithm_rows].
  - rewrite head_filter_None. split.
    + intros H id a Ha. apply String.eqb_neq. apply H.
      apply In_algorithm_rows. by exists id.
    + intros H a Ha. apply In_algorithm_rows in Ha as [id Ha].
      apply String.eqb_neq. by apply (H id).
Qed.

Lemma get_algorithm_by_uuid_spec_witness :
  let a1 := mkAlgorithm "a1" "Sepsis" "flowchart" None true true 3 7 0 in
  uuid a1 = "a1"%string /\
  exists id, algorithms (mkSession {[ 1 := a1 ]} [] []) !! id = Some a1.
Proof.
  intros a1.
  apply (proj1 (get_algorithm_by_uuid_spec (mkSession {[ 1 := a1 ]} [] []) "a1")).
  vm_compute. reflexivity.
Defined.
